(** * Pleiades, [pleiades/simData.py]: cross-section parser and transmission calculator

    A shallow embedding of [parse_xs_file], [Isotope.load_xs_data] and
    [create_transmission].  Python floats are IEEE binary64 numbers and are
    modelled by Rocq's primitive floats; Python strings are modelled by
    [string], one [ascii] per code point (code points below 256); raising an
    exception is modelled by the left injection of a sum. *)

From Stdlib Require Import List String Ascii ZArith Bool Lia.
From Stdlib Require Import Floats.
Import ListNotations.

Set Warnings "-inexact-float".

Local Open Scope string_scope.

(** ** Python builtins used by the module *)

Module Py.

(** The exceptions that the code and the builtins it calls can raise. *)
Inductive exn : Type :=
| ValueError (msg : string)
| ZeroDivisionError (msg : string)
| FileNotFoundError (path : string).

(** A computation either raises ([inl]) or returns ([inr]). *)
Definition result (A : Type) : Type := (exn + A)%type.

Definition ret {A} (a : A) : result A := inr a.
Definition raise {A} (e : exn) : result A := inl e.
Definition bind {A B} (c : result A) (k : A -> result B) : result B :=
  match c with
  | inl e => inl e
  | inr a => k a
  end.

(** [needle in hay] on strings. *)
Fixpoint py_in (needle hay : string) : bool :=
  String.prefix needle hay
  || match hay with
     | EmptyString => false
     | String _ hay' => py_in needle hay'
     end.

(** [line.startswith(p)]. *)
Definition startswith (line p : string) : bool := String.prefix p line.

(** [str.isspace] on one code point below 256: TAB, LF, VT, FF, CR,
    FS, GS, RS, US, SPACE, NEL and NBSP. *)
Definition isspace (c : ascii) : bool :=
  let n := nat_of_ascii c in
  (((9 <=? n) && (n <=? 13)) || ((28 <=? n) && (n <=? 32))
   || (n =? 133) || (n =? 160))%nat.

(** [s.split()] with no argument: the maximal runs of non-space
    characters, in order.  [cur] is the run being read, if any. *)
Fixpoint split_go (cur : option string) (s : string) : list string :=
  match s with
  | EmptyString =>
      match cur with
      | Some w => [w]
      | None => []
      end
  | String c s' =>
      if isspace c then
        match cur with
        | Some w => w :: split_go None s'
        | None => split_go None s'
        end
      else
        match cur with
        | Some w => split_go (Some (w ++ String c EmptyString)) s'
        | None => split_go (Some (String c EmptyString)) s'
        end
  end.

Definition split (s : string) : list string := split_go None s.

(** *** [float(token)], named [float_] here

    The grammar is the one of the Python reference:
    [[sign] (floatnumber | "inf" | "infinity" | "nan")], letters in any
    case, where a digit part is [digit (["_"] digit)*].  The value is the
    decimal number rounded to the nearest binary64 (ties to even).  The
    token is assumed to hold no white space, which is the case of every
    element of [split]. *)

Definition is_digit (c : ascii) : bool :=
  let n := nat_of_ascii c in ((48 <=? n) && (n <=? 57))%nat.

Definition digit_val (c : ascii) : Z := Z.of_nat (nat_of_ascii c - 48).

Definition lower (c : ascii) : ascii :=
  let n := nat_of_ascii c in
  if ((65 <=? n) && (n <=? 90))%nat then ascii_of_nat (n + 32) else c.

Fixpoint lower_string (s : string) : string :=
  match s with
  | EmptyString => EmptyString
  | String c s' => String (lower c) (lower_string s')
  end.

(** A digit part: its value and its number of digits; [None] when the
    string is not a digit part.  [prev] tells whether the previous character
    was a digit. *)
Fixpoint digitpart_go (prev : bool) (acc : Z) (n : Z) (s : string)
  : option (Z * Z) :=
  match s with
  | EmptyString => if prev then Some (acc, n) else None
  | String c s' =>
      if is_digit c then
        digitpart_go true (10 * acc + digit_val c) (n + 1) s'
      else if Ascii.eqb c "_" then
        if prev then digitpart_go false acc n s' else None
      else None
  end.

Definition digitpart (s : string) : option (Z * Z) :=
  digitpart_go false 0%Z 0%Z s.

(** A possibly empty digit part. *)
Definition opt_digitpart (s : string) : option (Z * Z) :=
  match s with
  | EmptyString => Some (0%Z, 0%Z)
  | _ => digitpart s
  end.

(** Cut [s] at the first character satisfying [p]: the part before it, and
    the part after it when there is one. *)
Fixpoint cut_at (p : ascii -> bool) (s : string) : string * option string :=
  match s with
  | EmptyString => (EmptyString, None)
  | String c s' =>
      if p c then (EmptyString, Some s')
      else let '(a, b) := cut_at p s' in (String c a, b)
  end.

Definition strip_sign (s : string) : bool * string :=
  match s with
  | String "-" s' => (true, s')
  | String "+" s' => (false, s')
  | _ => (false, s)
  end.

(** [m * 10^e10] rounded to the nearest binary64, with sign [neg];
    [m] is not negative. *)
Definition round_decimal (neg : bool) (m e10 : Z) : float :=
  if (m =? 0)%Z then (if neg then neg_zero else zero)
  else if (0 <=? e10)%Z then
    SF2Prim (binary_round prec emax neg (Z.to_pos (m * 10 ^ e10)) 0)
  else
    let d := (10 ^ (- e10))%Z in
    let s := (Z.log2_up d + 64)%Z in
    let q := ((m * 2 ^ s) / d)%Z in
    let r := ((m * 2 ^ s) mod d)%Z in
    let loc := if (r =? 0)%Z then loc_Exact
               else loc_Inexact (Z.compare (2 * r) d) in
    SF2Prim (binary_round_aux prec emax neg q (- s) loc).

(** The number part [[digitpart] "." digitpart | digitpart ["."]]: its
    digits read as an integer, and the number of digits after the point. *)
Definition parse_number (s : string) : option (Z * Z) :=
  let '(ip, fp) := cut_at (fun c => Ascii.eqb c ".") s in
  match fp with
  | None =>
      match digitpart ip with
      | Some (iv, _) => Some (iv, 0%Z)
      | None => None
      end
  | Some fp =>
      match opt_digitpart ip, opt_digitpart fp with
      | Some (iv, il), Some (fv, fl) =>
          if ((il =? 0) && (fl =? 0))%Z then None
          else Some ((iv * 10 ^ fl + fv)%Z, fl)
      | _, _ => None
      end
  end.

(** The exponent [[sign] digitpart] that follows ["e"] or ["E"]. *)
Definition parse_exponent (s : string) : option Z :=
  let '(neg, ds) := strip_sign s in
  match digitpart ds with
  | Some (v, _) => Some (if neg then (- v)%Z else v)
  | None => None
  end.

Definition float_of_string (s : string) : option float :=
  let '(neg, body) := strip_sign s in
  let l := lower_string body in
  if String.eqb l "inf" || String.eqb l "infinity" then
    Some (if neg then neg_infinity else infinity)
  else if String.eqb l "nan" then Some nan
  else
    let '(num, ex) := cut_at (fun c => Ascii.eqb (lower c) "e") body in
    match parse_number num with
    | None => None
    | Some (m, fl) =>
        match ex with
        | None => Some (round_decimal neg m (- fl))
        | Some ex =>
            match parse_exponent ex with
            | None => None
            | Some e => Some (round_decimal neg m (e - fl))
            end
        end
    end.

(** [repr] of a token, for tokens without quotes or escapes. *)
Definition repr (s : string) : string := "'" ++ s ++ "'".

Definition float_ (s : string) : result PrimFloat.float :=
  match float_of_string s with
  | Some x => ret x
  | None => raise (ValueError ("could not convert string to float: " ++ repr s))
  end.

(** [a / b] on floats: a zero divisor raises. *)
Definition truediv (a b : PrimFloat.float) : result PrimFloat.float :=
  if PrimFloat.eqb b 0%float then raise (ZeroDivisionError "float division by zero")
  else ret (a / b)%float.

(** [a, b = xs]: unpacking a sequence into exactly two names. *)
Definition unpack2 {A} (xs : list A) : result (A * A) :=
  match xs with
  | [a; b] => ret (a, b)
  | [] => raise (ValueError "not enough values to unpack (expected 2, got 0)")
  | [_] => raise (ValueError "not enough values to unpack (expected 2, got 1)")
  | _ => raise (ValueError "too many values to unpack (expected 2)")
  end.

(** [zip] applied to the unpacked list of pairs: the tuple of first
    components and the tuple of second components; no tuple at all for an
    empty list. *)
Definition zip_star {A} (pairs : list (A * A)) : list (list A) :=
  match pairs with
  | [] => []
  | _ => [map fst pairs; map snd pairs]
  end.

End Py.

(** ** The library interpolant the calculator calls

    [scipy.interpolate.interp1d] is not part of the package.  The model
    follows the library's implementation for [kind='linear'] with
    [fill_value="extrapolate"]: the constructor sorts the points with a stable
    argsort and accepts any table of at least one point; the call evaluates
    [_call_linear].  It is used where a statement needs the value of the
    interpolant; the statements that hold for every interpolant take it as a
    parameter. *)

Module SciPy.

Local Open Scope float_scope.

(** numpy's sorting order on floats: the usual order, with nan last. *)
Definition np_lt (a b : float) : bool :=
  (a <? b) || (is_nan b && negb (is_nan a)).

(** [np.argsort(x, kind="mergesort")] applied to [x] and [y] at once: a
    stable sort of the points by abscissa. *)
Fixpoint insert (p : float * float) (l : list (float * float))
  : list (float * float) :=
  match l with
  | [] => [p]
  | q :: l' => if np_lt (fst q) (fst p) then q :: insert p l' else p :: q :: l'
  end.

Fixpoint sort_points (l : list (float * float)) : list (float * float) :=
  match l with
  | [] => []
  | p :: l' => insert p (sort_points l')
  end.

(** [np.searchsorted(x, v)] on a sorted [x]: the first index whose element
    is not below [v]. *)
Fixpoint searchsorted (x : list float) (v : float) : Z :=
  match x with
  | [] => 0%Z
  | a :: x' => if np_lt a v then (1 + searchsorted x' v)%Z else 0%Z
  end.

(** [i.clip(lo, hi)], which is [minimum(maximum(i, lo), hi)]. *)
Definition clip (i lo hi : Z) : Z := Z.min (Z.max i lo) hi.

(** [a[i]], a negative index counting from the end. *)
Definition getitem (a : list float) (i : Z) : float :=
  let n := Z.of_nat (List.length a) in
  nth (Z.to_nat (if (i <? 0)%Z then i + n else i)%Z) a nan.

(** [interp1d(x, y, kind='linear', fill_value="extrapolate")(x_new)]:
    the points are sorted, the segment is chosen by [searchsorted] clipped
    to [1 .. len(x) - 1], and the value is read on the line through its two
    end points.  The two arrays are those of a non-empty list of pairs. *)
Definition interp1d (x y : list float) (x_new : float) : float :=
  let pts := sort_points (combine x y) in
  let xs := map fst pts in
  let ys := map snd pts in
  let hi := clip (searchsorted xs x_new) 1 (Z.of_nat (List.length xs) - 1) in
  let lo := (hi - 1)%Z in
  let x_lo := getitem xs lo in
  let x_hi := getitem xs hi in
  let y_lo := getitem ys lo in
  let y_hi := getitem ys hi in
  let slope := (y_hi - y_lo) / (x_hi - x_lo) in
  slope * (x_new - x_lo) + y_lo.

End SciPy.

(** ** [pleiades/simData.py] *)

Module simData.

Import Py.

Notation "x <- c1 ;; c2" := (bind c1 (fun x => c2))
  (at level 61, c1 at next level, right associativity).
Notation "' pat <- c1 ;; c2" := (bind c1 (fun x => match x with pat => c2 end))
  (at level 61, pat pattern, c1 at next level, right associativity).

Definition AVOGADRO : PrimFloat.float := 6.02214076E23%float.
Definition CM2_TO_BARN : PrimFloat.float := 1E24%float.

(** A cross-section series: (energy, cross-section) pairs. *)
Definition xs_series : Type := list (PrimFloat.float * PrimFloat.float).

(** The fields of [class Isotope]. *)
Record Isotope : Type := mkIsotope {
  name : string;
  atomic_mass : PrimFloat.float;
  thickness : PrimFloat.float;
  thickness_unit : string;
  abundance : PrimFloat.float;
  xs_file_location : string;
  density : PrimFloat.float;
  density_unit : string;
  xs_data : xs_series
}.

(** [Isotope.__init__] with every argument at its default. *)
Definition Isotope_default : Isotope :=
  mkIsotope "Unknown" 0.0%float 0.0%float "atoms/cm2" 0.0%float "Unknown"
            0.0%float "g/cm3" [].

Definition set_xs_data (self : Isotope) (d : xs_series) : Isotope :=
  mkIsotope (name self) (atomic_mass self) (thickness self)
            (thickness_unit self) (abundance self) (xs_file_location self)
            (density self) (density_unit self) d.

Definition set_thickness (self : Isotope) (t : PrimFloat.float) (u : string)
  : Isotope :=
  mkIsotope (name self) (atomic_mass self) t u (abundance self)
            (xs_file_location self) (density self) (density_unit self)
            (xs_data self).

(** *** [create_transmission] *)

(** The two messages are plain string literals in the source: they are
    neither f-strings nor formatted. *)
Definition thickness_unit_error : exn :=
  ValueError "Unsupported thickness unit: {thickness_unit} for {isotope_name}".
Definition density_unit_error : exn :=
  ValueError "Unsupported density unit:{density_unit} for {isotope_name}".

Section Calculator.

(** [np.exp] and the interpolant built by [scipy.interpolate.interp1d]
    from the two coordinate tuples. *)
Variable np_exp : PrimFloat.float -> PrimFloat.float.
Variable interp1d :
  list PrimFloat.float -> list PrimFloat.float ->
  PrimFloat.float -> PrimFloat.float.

(** The [for energy in energy_grid] loop; [transmission] is the list
    being appended to. *)
Fixpoint transmission_loop (interpolate_xs_data : PrimFloat.float -> PrimFloat.float)
         (areal_density : PrimFloat.float)
         (energy_grid : list PrimFloat.float)
         (transmission : list (PrimFloat.float * PrimFloat.float))
  : list (PrimFloat.float * PrimFloat.float) :=
  match energy_grid with
  | [] => transmission
  | energy :: rest =>
      let xs := interpolate_xs_data energy in
      transmission_loop interpolate_xs_data areal_density rest
        (transmission ++ [(energy, np_exp (- xs * areal_density)%float)])%list
  end.

(** The division by [atomic_mass] raises on a zero mass; the one by
    [CM2_TO_BARN], a non-zero constant, and the one by [10.0] never raise. *)
Definition create_transmission (energy_grid : list PrimFloat.float)
           (isotope : Isotope)
  : result (list (PrimFloat.float * PrimFloat.float)) :=
  let thickness := thickness isotope in
  let atomic_mass := atomic_mass isotope in
  let thickness_unit := thickness_unit isotope in
  let density := density isotope in
  let density_unit := density_unit isotope in
  let xs_data := xs_data isotope in
  thickness <-
    (if negb (String.eqb thickness_unit "cm") then
       if String.eqb thickness_unit "mm" then ret (thickness / 10.0)%float
       else raise thickness_unit_error
     else ret thickness) ;;
  _ <- (if negb (String.eqb density_unit "g/cm3")
        then raise density_unit_error else ret tt) ;;
  q <- truediv (thickness * density * AVOGADRO)%float atomic_mass ;;
  let areal_density := (q / CM2_TO_BARN)%float in
  '(energies_eV, cross_sections) <- unpack2 (zip_star xs_data) ;;
  let interpolate_xs_data := interp1d energies_eV cross_sections in
  ret (transmission_loop interpolate_xs_data areal_density energy_grid []).

End Calculator.

(** *** [parse_xs_file] *)

(** The file system: the lines that iterating over an open file yields
    (each with its line terminator), or nothing when the file cannot be
    opened. *)
Definition file_system : Type := string -> option (list string).

(** The local variables of [parse_xs_file] that the loop updates. *)
Record scan_state : Type := mkScan {
  scan_xs_data : xs_series;
  isotope_xs_found : bool;
  capture_data : bool
}.

Definition scan_init : scan_state := mkScan [] false false.

(** What one iteration of the loop body does. *)
Inductive step_result : Type :=
| Continue (st : scan_state)
| Break (st : scan_state)
| Raise (e : exn).

(** The data line: [energy_eV, xs = line.split()] and the appended pair. *)
Definition parse_data_line (line : string)
  : result (PrimFloat.float * PrimFloat.float) :=
  '(energy_eV, xs) <- unpack2 (split line) ;;
  e <- float_ energy_eV ;;
  x <- float_ xs ;;
  ret ((e * 1E6)%float, x).

(** The body of [for line in f]. *)
Definition scan_line (isotope_name : string) (st : scan_state) (line : string)
  : step_result :=
  let found := if py_in isotope_name line then true else isotope_xs_found st in
  if found then
    if py_in "#data..." line then
      Continue (mkScan (scan_xs_data st) found true)
    else if py_in "//" line then
      Break (mkScan (scan_xs_data st) found false)
    else if capture_data st && negb (startswith line "#") then
      match parse_data_line line with
      | inl e => Raise e
      | inr p => Continue (mkScan (scan_xs_data st ++ [p])%list found (capture_data st))
      end
    else Continue (mkScan (scan_xs_data st) found (capture_data st))
  else Continue (mkScan (scan_xs_data st) found (capture_data st)).

(** The whole loop: the state when it ends, by exhaustion or by [break]. *)
Fixpoint scan_lines (isotope_name : string) (st : scan_state)
         (lines : list string) : result scan_state :=
  match lines with
  | [] => ret st
  | line :: rest =>
      match scan_line isotope_name st line with
      | Continue st' => scan_lines isotope_name st' rest
      | Break st' => ret st'
      | Raise e => raise e
      end
  end.

Definition not_found_error (isotope_name file_location : string) : exn :=
  ValueError ("Cross-section data for " ++ isotope_name
              ++ " not found in " ++ file_location).

Definition parse_xs_file (fs : file_system) (file_location isotope_name : string)
  : result xs_series :=
  match fs file_location with
  | None => raise (FileNotFoundError file_location)
  | Some lines =>
      st <- scan_lines isotope_name scan_init lines ;;
      if negb (isotope_xs_found st) then
        raise (not_found_error isotope_name file_location)
      else ret (scan_xs_data st)
  end.

(** *** [Isotope.load_xs_data] *)

Definition no_data_error (self : Isotope) : exn :=
  ValueError ("No data loaded for " ++ name self ++ " from "
              ++ xs_file_location self).

(** The method mutates [self]: it returns the isotope as it is when the
    call ends, together with the outcome of the call. *)
Definition load_xs_data (fs : file_system) (self : Isotope)
  : Isotope * result unit :=
  match parse_xs_file fs (xs_file_location self) (name self) with
  | inl e => (self, raise e)
  | inr d =>
      let self' := set_xs_data self d in
      match xs_data self' with
      | [] => (self', raise (no_data_error self'))
      | _ :: _ => (self', ret tt)
      end
  end.

(** *** [Isotope.__repr__] and [Isotopes.__repr__] *)

Section Repr.

(** [str] of a float, as a replacement field of an f-string renders it. *)
Variable str_float : PrimFloat.float -> string.

Definition xs_status (self : Isotope) : string :=
  if negb (Nat.eqb (List.length (xs_data self)) 0)
  then "XS data loaded successfully" else "XS data not loaded".

Definition Isotope_repr (self : Isotope) : string :=
  "Isotope(" ++ name self ++ "," ++ str_float (atomic_mass self) ++ ","
  ++ str_float (thickness self) ++ " " ++ thickness_unit self ++ ", "
  ++ str_float (abundance self) ++ ", " ++ xs_file_location self ++ ", "
  ++ str_float (density self) ++ " " ++ density_unit self ++ ", "
  ++ xs_status self ++ ")".

(** [sep.join(items)]. *)
Fixpoint join (sep : string) (items : list string) : string :=
  match items with
  | [] => EmptyString
  | [x] => x
  | x :: rest => x ++ sep ++ join sep rest
  end.

Definition Isotopes_repr (isotopes : list Isotope) : string :=
  join (String (ascii_of_nat 10) EmptyString) (map Isotope_repr isotopes).

End Repr.

(** *** [Isotopes.__init__] *)

(** The configuration, as a [configparser.ConfigParser] shows it once a file
    is read: the section names in file order, and the value of an option of a
    section.  A look-up returns [None] when the section has no such option
    (the case in which a [fallback] is used) and raises what the library
    raises otherwise. *)
Record ConfigParser : Type := mkConfig {
  sections : list string;
  get_raw : string -> string -> result (option string)
}.

(** [config.get(section, option, fallback=d)]. *)
Definition config_get (config : ConfigParser) (section option fallback : string)
  : result string :=
  v <- get_raw config section option ;;
  match v with
  | Some s => ret s
  | None => ret fallback
  end.

(** [config.getfloat(section, option, fallback=d)]: the conversion is
    [float], and its error is not caught by the fallback. *)
Definition config_getfloat (config : ConfigParser) (section option : string)
           (fallback : PrimFloat.float) : result PrimFloat.float :=
  v <- get_raw config section option ;;
  match v with
  | Some s => float_ s
  | None => ret fallback
  end.

(** [ConfigParser.BOOLEAN_STATES]. *)
Definition BOOLEAN_STATES : list (string * bool) :=
  [("1", true); ("yes", true); ("true", true); ("on", true);
   ("0", false); ("no", false); ("false", false); ("off", false)].

Fixpoint lookup_state (key : string) (states : list (string * bool))
  : option bool :=
  match states with
  | [] => None
  | (k, b) :: rest => if String.eqb key k then Some b else lookup_state key rest
  end.

(** [config.getboolean(section, option, fallback=d)]: the value is looked up
    in lower case; the keys are ASCII, so only ASCII letters matter. *)
Definition config_getboolean (config : ConfigParser) (section option : string)
           (fallback : bool) : result bool :=
  v <- get_raw config section option ;;
  match v with
  | Some s =>
      match lookup_state (lower_string s) BOOLEAN_STATES with
      | Some b => ret b
      | None => raise (ValueError ("Not a boolean: " ++ s))
      end
  | None => ret fallback
  end.

Section Loader.

(** What the constructor reads from outside: the configuration that
    [config.read(config_file)] leaves in [config], the atomic masses of
    [pleiades.nucData] and the cross-section files. *)
Variable config_read : string -> result ConfigParser.
Variable get_mass_from_ame : string -> result PrimFloat.float.
Variable fs : file_system.

(** The [for section in config.sections()] loop; [isotopes] is
    [self.isotopes]. *)
Fixpoint isotopes_loop (config : ConfigParser) (default_isotope : Isotope)
         (todo : list string) (isotopes : list Isotope)
  : result (list Isotope) :=
  match todo with
  | [] => ret isotopes
  | section :: rest =>
      ignore <- config_getboolean config section "ignore" false ;;
      if ignore then isotopes_loop config default_isotope rest isotopes
      else
        name <- config_get config section "name" (name default_isotope) ;;
        atomic_mass <- get_mass_from_ame name ;;
        thickness <- config_getfloat config section "thickness"
                       (thickness default_isotope) ;;
        thickness_unit <- config_get config section "thickness_unit"
                            (thickness_unit default_isotope) ;;
        abundance <- config_getfloat config section "abundance"
                       (abundance default_isotope) ;;
        xs_file_location <- config_get config section "xs_file_location"
                              (xs_file_location default_isotope) ;;
        density <- config_getfloat config section "density"
                     (density default_isotope) ;;
        density_unit <- config_get config section "density_unit"
                          (density_unit default_isotope) ;;
        let isotope :=
          mkIsotope name atomic_mass thickness thickness_unit abundance
                    xs_file_location density density_unit [] in
        let '(isotope, loaded) := load_xs_data fs isotope in
        _ <- loaded ;;
        isotopes_loop config default_isotope rest (isotopes ++ [isotope])%list
  end.

(** [Isotopes(config_file)]: the list [self.isotopes] of the new object. *)
Definition Isotopes_init (config_file : string) : result (list Isotope) :=
  config <- config_read config_file ;;
  let default_isotope := Isotope_default in
  isotopes_loop config default_isotope (sections config) [].

End Loader.

End simData.

(** * Properties *)

Import Py simData.

(** ** Vocabulary of the statements *)

(** The line terminator, and the stand-in used for [np.exp] where a concrete
    function is needed: the results then show the argument [np.exp] receives. *)
Definition nl : string := String (ascii_of_nat 10) EmptyString.
Definition exp_arg : float -> float := fun x => x.

Section Curves.

Variable np_exp : float -> float.
Variable interp1d : list float -> list float -> float -> float.

(** The curve the loop builds: one pair per grid point. *)
Definition curve_of (f : float -> float) (areal_density : float)
           (energy_grid : list float) : list (float * float) :=
  map (fun energy => (energy, np_exp (- f energy * areal_density)%float))
      energy_grid.

(** What the function computes once the thickness is in centimetres and
    the density unit is accepted. *)
Definition after_unit_checks (thickness_cm : float) (energy_grid : list float)
           (isotope : Isotope) : result (list (float * float)) :=
  q <- truediv (thickness_cm * density isotope * AVOGADRO)%float
               (atomic_mass isotope) ;;
  '(energies_eV, cross_sections) <- unpack2 (zip_star (xs_data isotope)) ;;
  ret (curve_of (interp1d energies_eV cross_sections) (q / CM2_TO_BARN)%float
                energy_grid).

End Curves.

Definition is_unit_error (e : exn) : Prop :=
  e = thickness_unit_error \/ e = density_unit_error.

(** The isotope of the concrete scenario: 1.0 cm thick, density 1.0 g/cm3,
    atomic mass 1.0, one tabulated point (1e6 eV, 1.0 barn). *)
Definition scenario_isotope : Isotope :=
  mkIsotope "A" 1.0%float 1.0%float "cm" 1.0%float "xs.txt" 1.0%float "g/cm3"
            [(1e6, 1.0)]%float.

(** An isotope built with the constructor's default atomic mass (0.0), with
    valid units and loaded data. *)
Definition massless_isotope : Isotope :=
  mkIsotope "A" 0.0%float 1.0%float "cm" 1.0%float "xs.txt" 1.0%float "g/cm3"
            [(1e6, 1.0); (2e6, 1.0)]%float.

(** An isotope whose density is given in kg/m3, and one whose thickness is
    given in metres. *)
Definition kg_m3_isotope : Isotope :=
  mkIsotope "U235" 235.0%float 1.0%float "cm" 1.0%float "xs.txt" 19.0%float
            "kg/m3" [(1e6, 1.0); (2e6, 1.0)]%float.

Definition metre_isotope : Isotope :=
  mkIsotope "U235" 235.0%float 1.0%float "m" 1.0%float "xs.txt" 19.0%float
            "g/cm3" [(1e6, 1.0); (2e6, 1.0)]%float.

(** An isotope that already holds a series. *)
Definition loaded_isotope : Isotope :=
  mkIsotope "A" 1.0%float 1.0%float "cm" 1.0%float "xs.txt" 1.0%float "g/cm3"
            [(1e6, 2.5); (2e6, 3.0)]%float.

(** The synthetic file: the name, the marker, two data lines, the end
    marker. *)
Definition synthetic_file : list string :=
  ["A" ++ nl; "#data..." ++ nl; "1.0 2.5" ++ nl; "2.0 3.0" ++ nl; "//" ++ nl].

(** A file system that holds one file. *)
Definition one_file (location : string) (lines : list string) : file_system :=
  fun p => if String.eqb p location then Some lines else None.

(** The kinds of lines the parser tells apart.  A plain line holds neither
    marker; an end line holds the end marker and not the data marker; a
    comment line starts with "#" and holds neither a marker nor the name; a
    data row is a plain line that is not a comment and parses to a pair. *)
Definition plain (line : string) : bool :=
  negb (py_in "#data..." line) && negb (py_in "//" line).

Definition is_end_line (line : string) : bool :=
  py_in "//" line && negb (py_in "#data..." line).

Definition comment_line (isotope_name line : string) : bool :=
  startswith line "#" && plain line && negb (py_in isotope_name line).

Definition data_row (line : string) (p : float * float) : Prop :=
  plain line = true /\ startswith line "#" = false
  /\ parse_data_line line = inr p.

(** A row that the parser rejects with the exception [e]. *)
Definition bad_row (line : string) (e : exn) : Prop :=
  plain line = true /\ startswith line "#" = false
  /\ parse_data_line line = inl e.

(** A line made of white space only (a blank line). *)
Fixpoint all_space (s : string) : bool :=
  match s with
  | EmptyString => true
  | String c s' => isspace c && all_space s'
  end.

(** The lines that may follow the rows of a block: nothing, or an end line
    and anything after it. *)
Definition block_end (tail : list string) : Prop :=
  tail = [] \/ exists e rest, tail = e :: rest /\ is_end_line e = true.



(** A configuration held in memory: its sections, each a list of options
    with their values. *)
Fixpoint assoc (key : string) (l : list (string * string)) : option string :=
  match l with
  | [] => None
  | (k, v) :: rest => if String.eqb key k then Some v else assoc key rest
  end.

Definition config_of (l : list (string * list (string * string)))
  : ConfigParser :=
  mkConfig (map fst l)
           (fun section option =>
              match find (fun p => String.eqb section (fst p)) l with
              | Some (_, options) => inr (assoc option options)
              | None => inr None
              end).


(** A configuration of three sections, the second one ignored, and the
    collaborators of the loader that go with it. *)
Definition example_config : ConfigParser :=
  config_of
    [("first", [("name", "A"); ("thickness", "2.0"); ("thickness_unit", "mm");
                ("xs_file_location", "xs.txt"); ("density", "1.5")]);
     ("second", [("ignore", "Yes"); ("name", "Z")]);
     ("third", [("name", "A"); ("xs_file_location", "xs.txt")])].

Definition example_read : string -> result ConfigParser :=
  fun _ => inr example_config.

Definition example_mass : string -> result float := fun _ => inr 12.0%float.

(** ** The calculator *)

Section CalculatorFacts.

Variable np_exp : float -> float.
Variable interp1d : list float -> list float -> float -> float.

Lemma transmission_loop_app f ad grid acc :
  transmission_loop np_exp f ad grid acc
  = (acc ++ curve_of np_exp f ad grid)%list.
Proof.
  revert acc. induction grid as [|e grid IH]; intros acc; simpl.
  - now rewrite app_nil_r.
  - rewrite IH, <- app_assoc. reflexivity.
Qed.

Lemma transmission_loop_map f ad grid :
  transmission_loop np_exp f ad grid [] = curve_of np_exp f ad grid.
Proof. apply transmission_loop_app. Qed.

Lemma curve_of_energies f ad grid : map fst (curve_of np_exp f ad grid) = grid.
Proof.
  unfold curve_of. rewrite map_map. simpl. apply map_id.
Qed.

Lemma curve_of_length f ad grid :
  List.length (curve_of np_exp f ad grid) = List.length grid.
Proof. unfold curve_of. apply length_map. Qed.

Lemma unpack2_zip_star (d : xs_series) :
  d <> [] -> unpack2 (zip_star d) = inr (map fst d, map snd d).
Proof. destruct d; [congruence | reflexivity]. Qed.

(** The unit checks, branch by branch. *)
Lemma create_transmission_cm grid iso :
  thickness_unit iso = "cm" -> density_unit iso = "g/cm3" ->
  create_transmission np_exp interp1d grid iso
  = after_unit_checks np_exp interp1d (thickness iso) grid iso.
Proof.
  intros Ht Hd. unfold create_transmission, after_unit_checks.
  rewrite Ht, Hd. simpl.
  destruct (truediv _ _) as [e|q]; simpl; [reflexivity|].
  destruct (unpack2 _) as [e|[xs ys]]; simpl; [reflexivity|].
  now rewrite transmission_loop_map.
Qed.

Lemma create_transmission_mm grid iso :
  thickness_unit iso = "mm" -> density_unit iso = "g/cm3" ->
  create_transmission np_exp interp1d grid iso
  = after_unit_checks np_exp interp1d (thickness iso / 10.0)%float grid iso.
Proof.
  intros Ht Hd. unfold create_transmission, after_unit_checks.
  rewrite Ht, Hd. simpl.
  destruct (truediv _ _) as [e|q]; simpl; [reflexivity|].
  destruct (unpack2 _) as [e|[xs ys]]; simpl; [reflexivity|].
  now rewrite transmission_loop_map.
Qed.

Lemma create_transmission_bad_thickness_unit grid iso :
  thickness_unit iso <> "cm" -> thickness_unit iso <> "mm" ->
  create_transmission np_exp interp1d grid iso = inl thickness_unit_error.
Proof.
  intros Hcm Hmm. unfold create_transmission.
  apply String.eqb_neq in Hcm, Hmm. rewrite Hcm, Hmm. reflexivity.
Qed.

Lemma create_transmission_bad_density_unit grid iso :
  thickness_unit iso = "cm" \/ thickness_unit iso = "mm" ->
  density_unit iso <> "g/cm3" ->
  create_transmission np_exp interp1d grid iso = inl density_unit_error.
Proof.
  intros Hu Hd. apply String.eqb_neq in Hd. unfold create_transmission.
  destruct Hu as [Hu|Hu]; rewrite Hu; simpl; rewrite Hd; reflexivity.
Qed.

Lemma after_unit_checks_returns t grid iso :
  PrimFloat.eqb (atomic_mass iso) 0 = false -> xs_data iso <> [] ->
  after_unit_checks np_exp interp1d t grid iso
  = inr (curve_of np_exp
           (interp1d (map fst (xs_data iso)) (map snd (xs_data iso)))
           (t * density iso * AVOGADRO / atomic_mass iso / CM2_TO_BARN)%float
           grid).
Proof.
  intros Hm Hx. unfold after_unit_checks, truediv. rewrite Hm. simpl.
  rewrite (unpack2_zip_star _ Hx). reflexivity.
Qed.

(** The outcome depends on the isotope through five fields only, the
    thickness being read in centimetres. *)
Lemma after_unit_checks_ext t grid iso1 iso2 :
  density iso1 = density iso2 -> atomic_mass iso1 = atomic_mass iso2 ->
  xs_data iso1 = xs_data iso2 ->
  after_unit_checks np_exp interp1d t grid iso1
  = after_unit_checks np_exp interp1d t grid iso2.
Proof.
  intros Hd Hm Hx. unfold after_unit_checks. rewrite Hd, Hm, Hx. reflexivity.
Qed.

End CalculatorFacts.

(** C1, as stated, fails on an isotope whose atomic mass is 0.0 (the
    constructor's default): with valid units and loaded data, the division by
    the atomic mass raises ZeroDivisionError, even for the empty grid. *)
Lemma create_transmission_zero_mass_raises :
  create_transmission exp_arg SciPy.interp1d [] massless_isotope
  = inl (ZeroDivisionError "float division by zero").
Proof. reflexivity. Qed.

(** C1 (amended): for every energy grid and every isotope with valid units,
    a non-zero atomic mass and non-empty cross-section data,
    [create_transmission] returns one pair per grid point, whose energies are
    the grid values in the same order; the empty grid gives the empty
    curve. *)
Theorem create_transmission_one_pair_per_grid_point
        (np_exp : float -> float)
        (interp1d : list float -> list float -> float -> float)
        (grid : list float) (iso : Isotope)
        (Hunit : thickness_unit iso = "cm" \/ thickness_unit iso = "mm")
        (Hdens : density_unit iso = "g/cm3")
        (Hmass : PrimFloat.eqb (atomic_mass iso) 0 = false)
        (Hdata : xs_data iso <> []) :
  exists curve,
    create_transmission np_exp interp1d grid iso = inr curve
    /\ map fst curve = grid
    /\ List.length curve = List.length grid
    /\ (grid = [] -> curve = []).
Proof.
  destruct Hunit as [Hu|Hu].
  - rewrite (create_transmission_cm _ _ _ _ Hu Hdens).
    rewrite (after_unit_checks_returns _ _ _ _ _ Hmass Hdata).
    eexists; split; [reflexivity|].
    split; [apply curve_of_energies|].
    split; [apply curve_of_length|].
    intros ->; reflexivity.
  - rewrite (create_transmission_mm _ _ _ _ Hu Hdens).
    rewrite (after_unit_checks_returns _ _ _ _ _ Hmass Hdata).
    eexists; split; [reflexivity|].
    split; [apply curve_of_energies|].
    split; [apply curve_of_length|].
    intros ->; reflexivity.
Qed.

Lemma create_transmission_one_pair_per_grid_point_witness :
  exists curve,
    create_transmission exp_arg SciPy.interp1d [1e6; 3e6; 2e6]%float
      (set_xs_data scenario_isotope [(1e6, 1.0); (2e6, 3.0)]%float) = inr curve
    /\ map fst curve = [1e6; 3e6; 2e6]%float
    /\ List.length curve = 3
    /\ ([1e6; 3e6; 2e6]%float = [] -> curve = []).
Proof.
  apply (create_transmission_one_pair_per_grid_point exp_arg SciPy.interp1d
           [1e6; 3e6; 2e6]%float
           (set_xs_data scenario_isotope [(1e6, 1.0); (2e6, 3.0)]%float)).
  - left; reflexivity.
  - reflexivity.
  - reflexivity.
  - simpl; discriminate.
Defined.

(** C2, as stated, fails: on the one-point table the linear interpolant has
    the slope 0/0, so [np.exp] is applied to nan and not to -0.602214076
    ([exp_arg] shows the argument of [np.exp]). *)
Lemma create_transmission_scenario_exp_of_nan :
  create_transmission exp_arg SciPy.interp1d [1e6]%float scenario_isotope
  = inr [(1e6, nan)]%float.
Proof. vm_compute. reflexivity. Qed.

(** C2 (amended): in the scenario the areal density is 0.602214076; with the
    single tabulated point the returned transmission at 1e6 is [np.exp(nan)];
    with a second tabulated point (2e6 eV, 1.0 barn) it is
    [np.exp(-0.602214076)]. *)
Theorem create_transmission_scenario (np_exp : float -> float) :
  (thickness scenario_isotope * density scenario_isotope * AVOGADRO
   / atomic_mass scenario_isotope / CM2_TO_BARN = 0.602214076)%float
  /\ create_transmission np_exp SciPy.interp1d [1e6]%float scenario_isotope
     = inr [(1e6, np_exp nan)]%float
  /\ create_transmission np_exp SciPy.interp1d [1e6]%float
       (set_xs_data scenario_isotope [(1e6, 1.0); (2e6, 1.0)]%float)
     = inr [(1e6, np_exp (-0.602214076))]%float.
Proof.
  split; [vm_compute; reflexivity|].
  split.
  - rewrite create_transmission_cm by reflexivity.
    rewrite after_unit_checks_returns by (simpl; (reflexivity || discriminate)).
    vm_compute. reflexivity.
  - rewrite create_transmission_cm by reflexivity.
    rewrite after_unit_checks_returns by (simpl; (reflexivity || discriminate)).
    vm_compute. reflexivity.
Qed.

(** C4: a thickness unit other than "cm" and "mm" (the constructor's default
    "atoms/cm2" is one) and a density unit other than "g/cm3" each make
    [create_transmission] raise a unit error, whatever the other fields; with
    "mm" the thickness enters the areal density divided by 10. *)
Theorem create_transmission_unit_checks
        (np_exp : float -> float)
        (interp1d : list float -> list float -> float -> float)
        (grid : list float) (iso : Isotope) :
  (thickness_unit iso <> "cm" -> thickness_unit iso <> "mm" ->
   create_transmission np_exp interp1d grid iso = inl thickness_unit_error)
  /\ (thickness_unit iso = "atoms/cm2" ->
      create_transmission np_exp interp1d grid iso = inl thickness_unit_error)
  /\ (density_unit iso <> "g/cm3" ->
      exists e, create_transmission np_exp interp1d grid iso = inl e
                /\ is_unit_error e)
  /\ (thickness_unit iso = "mm" -> density_unit iso = "g/cm3" ->
      PrimFloat.eqb (atomic_mass iso) 0 = false -> xs_data iso <> [] ->
      create_transmission np_exp interp1d grid iso
      = inr (curve_of np_exp
               (interp1d (map fst (xs_data iso)) (map snd (xs_data iso)))
               (thickness iso / 10.0 * density iso * AVOGADRO
                / atomic_mass iso / CM2_TO_BARN)%float
               grid)).
Proof.
  pose proof (create_transmission_bad_thickness_unit np_exp interp1d grid iso)
    as Hbad.
  split; [exact Hbad|].
  split.
  { intros Hdef. apply Hbad; rewrite Hdef; discriminate. }
  split.
  - intros Hd. apply String.eqb_neq in Hd.
    unfold create_transmission.
    destruct (String.eqb (thickness_unit iso) "cm"); simpl.
    + rewrite Hd. simpl. eexists; split; [reflexivity | right; reflexivity].
    + destruct (String.eqb (thickness_unit iso) "mm"); simpl.
      * rewrite Hd. simpl. eexists; split; [reflexivity | right; reflexivity].
      * eexists; split; [reflexivity | left; reflexivity].
  - intros Hu Hd Hm Hx.
    rewrite (create_transmission_mm _ _ _ _ Hu Hd).
    apply after_unit_checks_returns; assumption.
Qed.

Lemma create_transmission_unit_checks_witness :
  create_transmission exp_arg SciPy.interp1d [1e6]%float
    (set_thickness massless_isotope 1.0%float "atoms/cm2")
  = inl thickness_unit_error
  /\ (exists e, create_transmission exp_arg SciPy.interp1d [1e6]%float
                  kg_m3_isotope = inl e
                /\ is_unit_error e)
  /\ create_transmission exp_arg SciPy.interp1d [1e6]%float
       (set_thickness kg_m3_isotope 5.0%float "mm")
     = inl density_unit_error
  /\ create_transmission exp_arg SciPy.interp1d [1e6]%float
       (set_thickness metre_isotope 5.0%float "mm")
     = inr [(1e6, exp_arg (- 1.0 * (5.0 / 10.0 * 19.0 * AVOGADRO / 235.0
                                     / CM2_TO_BARN)))]%float.
Proof.
  split.
  { apply (create_transmission_unit_checks exp_arg SciPy.interp1d [1e6]%float
             (set_thickness massless_isotope 1.0%float "atoms/cm2")).
    reflexivity. }
  split.
  { apply (create_transmission_unit_checks exp_arg SciPy.interp1d [1e6]%float
             kg_m3_isotope).
    simpl; discriminate. }
  split.
  { reflexivity. }
  rewrite (proj2 (proj2 (proj2
            (create_transmission_unit_checks exp_arg SciPy.interp1d [1e6]%float
               (set_thickness metre_isotope 5.0%float "mm"))))).
  - vm_compute. reflexivity.
  - reflexivity.
  - reflexivity.
  - reflexivity.
  - simpl; discriminate.
Defined.

(** C8: two isotopes that agree on every field the calculator reads, one
    with thickness [t] in "mm" and the other with thickness [t / 10] in "cm",
    give the same outcome on every energy grid: the same curve, or the same
    exception. *)
Theorem create_transmission_mm_cm
        (np_exp : float -> float)
        (interp1d : list float -> list float -> float -> float)
        (grid : list float) (t : float) (iso_mm iso_cm : Isotope)
        (Hmm : thickness_unit iso_mm = "mm") (Htmm : thickness iso_mm = t)
        (Hcm : thickness_unit iso_cm = "cm")
        (Htcm : thickness iso_cm = (t / 10)%float)
        (Hdensity : density iso_mm = density iso_cm)
        (Hdensity_unit : density_unit iso_mm = density_unit iso_cm)
        (Hmass : atomic_mass iso_mm = atomic_mass iso_cm)
        (Hdata : xs_data iso_mm = xs_data iso_cm) :
  create_transmission np_exp interp1d grid iso_mm
  = create_transmission np_exp interp1d grid iso_cm.
Proof.
  destruct (String.eqb_spec (density_unit iso_cm) "g/cm3") as [Hd|Hd].
  - rewrite create_transmission_mm by congruence.
    rewrite create_transmission_cm by congruence.
    rewrite Htmm, Htcm.
    apply after_unit_checks_ext; assumption.
  - rewrite !create_transmission_bad_density_unit; auto; congruence.
Qed.

Lemma create_transmission_mm_cm_witness :
  create_transmission exp_arg SciPy.interp1d [1e6; 1.5e6]%float
    (set_thickness loaded_isotope 5.0%float "mm")
  = create_transmission exp_arg SciPy.interp1d [1e6; 1.5e6]%float
      (set_thickness loaded_isotope (5.0 / 10)%float "cm").
Proof.
  apply (create_transmission_mm_cm exp_arg SciPy.interp1d [1e6; 1.5e6]%float
           5.0%float); reflexivity.
Defined.

(** *** Error messages *)

Lemma prefix_app (n b : string) : String.prefix n (n ++ b) = true.
Proof.
  induction n as [|c n IH]; simpl.
  - destruct b; reflexivity.
  - destruct (ascii_dec c c) as [_|Hc]; [exact IH | congruence].
Qed.

Lemma py_in_here (n b : string) : py_in n (n ++ b) = true.
Proof.
  pose proof (prefix_app n b) as H.
  destruct (n ++ b); cbn [py_in]; rewrite H; reflexivity.
Qed.

Lemma py_in_skip (n a s : string) : py_in n s = true -> py_in n (a ++ s) = true.
Proof.
  intros H. induction a as [|c a IH]; simpl; [exact H|].
  rewrite IH. apply orb_true_r.
Qed.

Lemma py_in_middle (n a b : string) : py_in n (a ++ n ++ b) = true.
Proof. apply py_in_skip, py_in_here. Qed.

Lemma py_in_refl (n : string) : py_in n n = true.
Proof.
  assert (Hp : String.prefix n n = true).
  { induction n as [|c n IH]; simpl; [reflexivity|].
    destruct (ascii_dec c c) as [_|Hc]; [exact IH | congruence]. }
  destruct n; cbn [py_in]; rewrite Hp; reflexivity.
Qed.

(** C7: the messages of the not-found error and of the no-data error name
    the isotope and the file, but the two unit errors of
    [create_transmission] carry their format string as it is written: the
    message names neither the rejected unit nor the isotope. *)
Theorem unit_error_messages_are_literal
        (np_exp : float -> float)
        (interp1d : list float -> list float -> float -> float)
        (grid : list float) :
  (forall isotope_name file_location,
      exists msg, not_found_error isotope_name file_location = ValueError msg
                  /\ py_in isotope_name msg = true
                  /\ py_in file_location msg = true)
  /\ (forall self,
         exists msg, no_data_error self = ValueError msg
                     /\ py_in (name self) msg = true
                     /\ py_in (xs_file_location self) msg = true)
  /\ (exists msg,
         create_transmission np_exp interp1d grid kg_m3_isotope
         = inl (ValueError msg)
         /\ py_in (density_unit kg_m3_isotope) msg = false
         /\ py_in (name kg_m3_isotope) msg = false)
  /\ (exists msg,
         create_transmission np_exp interp1d grid metre_isotope
         = inl (ValueError msg)
         /\ msg = "Unsupported thickness unit: {thickness_unit} for {isotope_name}"
         /\ py_in (name metre_isotope) msg = false).
Proof.
  split.
  { intros n f. eexists; split; [reflexivity|]. split.
    - apply py_in_middle.
    - apply py_in_skip, py_in_skip, py_in_skip, py_in_refl. }
  split.
  { intros self. eexists; split; [reflexivity|]. split.
    - apply py_in_middle.
    - apply py_in_skip, py_in_skip, py_in_skip, py_in_refl. }
  split.
  - eexists; split; [reflexivity|]. split; reflexivity.
  - eexists; split; [reflexivity|]. split; reflexivity.
Qed.

(** ** The parser *)

Lemma scan_line_ignored isotope_name st line :
  isotope_xs_found st = false -> py_in isotope_name line = false ->
  scan_line isotope_name st line = Continue st.
Proof.
  intros Hf Hn. unfold scan_line. rewrite Hn, Hf.
  destruct st; simpl in *; subst; reflexivity.
Qed.

Lemma scan_line_end_marker isotope_name st line :
  isotope_xs_found st = true \/ py_in isotope_name line = true ->
  py_in "//" line = true -> py_in "#data..." line = false ->
  scan_line isotope_name st line = Break (mkScan (scan_xs_data st) true false).
Proof.
  intros Hf He Hd. unfold scan_line.
  assert (Hfound : (if py_in isotope_name line then true else isotope_xs_found st)
                   = true).
  { destruct Hf as [Hf|Hf]; rewrite Hf;
      [destruct (py_in isotope_name line)|]; reflexivity. }
  rewrite Hfound, Hd, He. reflexivity.
Qed.

Lemma scan_lines_skip isotope_name st pre rest :
  isotope_xs_found st = false ->
  Forall (fun l => py_in isotope_name l = false) pre ->
  scan_lines isotope_name st (pre ++ rest) = scan_lines isotope_name st rest.
Proof.
  intros Hf Hpre. induction Hpre as [|l pre Hl _ IH]; simpl; [reflexivity|].
  rewrite (scan_line_ignored _ _ _ Hf Hl). exact IH.
Qed.

Lemma scan_lines_name_absent isotope_name st lines :
  isotope_xs_found st = false ->
  Forall (fun l => py_in isotope_name l = false) lines ->
  scan_lines isotope_name st lines = inr st.
Proof.
  intros Hf Hl. rewrite <- (app_nil_r lines).
  rewrite (scan_lines_skip _ _ _ [] Hf Hl). reflexivity.
Qed.

(** C3: on the synthetic file, parsing for "A" returns the two rows in file
    order, the energies converted from MeV to eV. *)
Theorem parse_xs_file_synthetic (fs : file_system) (file_location : string)
        (Hfile : fs file_location = Some synthetic_file) :
  parse_xs_file fs file_location "A" = inr [(1e6, 2.5); (2e6, 3.0)]%float.
Proof.
  unfold parse_xs_file. rewrite Hfile. vm_compute. reflexivity.
Qed.

Lemma parse_xs_file_synthetic_witness :
  parse_xs_file (one_file "xs.txt" synthetic_file) "xs.txt" "A"
  = inr [(1e6, 2.5); (2e6, 3.0)]%float.
Proof.
  apply (parse_xs_file_synthetic (one_file "xs.txt" synthetic_file) "xs.txt").
  reflexivity.
Defined.

(** C5: when the isotope name is a substring of no line of the file,
    [parse_xs_file] raises the not-found error for that isotope and file. *)
Theorem parse_xs_file_name_absent (fs : file_system)
        (file_location isotope_name : string) (lines : list string)
        (Hfile : fs file_location = Some lines)
        (Habsent : Forall (fun l => py_in isotope_name l = false) lines) :
  parse_xs_file fs file_location isotope_name
  = inl (not_found_error isotope_name file_location).
Proof.
  unfold parse_xs_file. rewrite Hfile.
  rewrite (scan_lines_name_absent isotope_name scan_init lines eq_refl Habsent).
  reflexivity.
Qed.

Lemma parse_xs_file_name_absent_witness :
  parse_xs_file (one_file "xs.txt" synthetic_file) "xs.txt" "Z"
  = inl (ValueError "Cross-section data for Z not found in xs.txt").
Proof.
  apply (parse_xs_file_name_absent (one_file "xs.txt" synthetic_file)
           "xs.txt" "Z" synthetic_file).
  - reflexivity.
  - repeat constructor.
Defined.

(** C6, as stated, fails: when the name is seen and no data row is captured,
    [parse_xs_file] returns the empty series without raising. *)
Lemma parse_xs_file_returns_empty :
  parse_xs_file (one_file "xs.txt" ["A" ++ nl; "//" ++ nl]) "xs.txt" "A"
  = inr [].
Proof. reflexivity. Qed.

(** C6 (amended): if [load_xs_data] returns without raising, the isotope's
    series, which is the one [parse_xs_file] returned, is not empty. *)
Theorem load_xs_data_nonempty (fs : file_system) (self self' : Isotope)
        (Hload : load_xs_data fs self = (self', inr tt)) :
  xs_data self' <> []
  /\ parse_xs_file fs (xs_file_location self) (name self) = inr (xs_data self').
Proof.
  unfold load_xs_data in Hload.
  destruct (parse_xs_file fs (xs_file_location self) (name self)) as [e|d].
  - discriminate.
  - destruct d as [|p d]; simpl in Hload; [discriminate|].
    injection Hload as <-. simpl. split; [discriminate | reflexivity].
Qed.

Lemma load_xs_data_nonempty_witness :
  xs_data (set_xs_data Isotope_default [(1e6, 2.5); (2e6, 3.0)]%float) <> []
  /\ parse_xs_file (one_file "Unknown" (("Unknown" ++ nl) :: synthetic_file))
       (xs_file_location Isotope_default) (name Isotope_default)
     = inr (xs_data (set_xs_data Isotope_default [(1e6, 2.5); (2e6, 3.0)]%float)).
Proof.
  apply (load_xs_data_nonempty
           (one_file "Unknown" (("Unknown" ++ nl) :: synthetic_file))
           Isotope_default).
  vm_compute. reflexivity.
Defined.

(** C9: a line that holds "//" is ignored as long as the name has not been
    seen; once the name has been seen (on an earlier line or on the same
    one), a line that holds "//" and not "#data..." ends the scan at once,
    whatever its first character and whatever follows it. *)
Theorem end_marker_only_after_name (isotope_name : string) :
  (forall pre line rest,
      Forall (fun l => py_in isotope_name l = false) (pre ++ [line]) ->
      py_in "//" line = true ->
      scan_lines isotope_name scan_init (pre ++ line :: rest)
      = scan_lines isotope_name scan_init rest)
  /\ (forall st line rest,
         isotope_xs_found st = true \/ py_in isotope_name line = true ->
         py_in "//" line = true -> py_in "#data..." line = false ->
         scan_line isotope_name st line
         = Break (mkScan (scan_xs_data st) true false)
         /\ scan_lines isotope_name st (line :: rest)
            = inr (mkScan (scan_xs_data st) true false)).
Proof.
  split.
  - intros pre line rest Hpre _.
    replace (pre ++ line :: rest)%list with ((pre ++ [line]) ++ rest)%list
      by (rewrite <- app_assoc; reflexivity).
    apply scan_lines_skip; [reflexivity | exact Hpre].
  - intros st line rest Hf He Hd.
    pose proof (scan_line_end_marker _ _ _ Hf He Hd) as Hs.
    split; [exact Hs|]. simpl. rewrite Hs. reflexivity.
Qed.

Lemma end_marker_only_after_name_witness :
  scan_lines "A" scan_init
    (["header" ++ nl] ++ ("//" ++ nl) :: synthetic_file)
  = scan_lines "A" scan_init synthetic_file
  /\ scan_line "A" (mkScan [(1e6, 2.5)]%float true true) ("# end //" ++ nl)
     = Break (mkScan [(1e6, 2.5)]%float true false)
  /\ scan_lines "A" (mkScan [(1e6, 2.5)]%float true true)
       (("# end //" ++ nl) :: ["not a data line" ++ nl])
     = inr (mkScan [(1e6, 2.5)]%float true false).
Proof.
  split.
  - apply (proj1 (end_marker_only_after_name "A")).
    + repeat constructor.
    + reflexivity.
  - apply (proj2 (end_marker_only_after_name "A")
             (mkScan [(1e6, 2.5)]%float true true)).
    + left; reflexivity.
    + reflexivity.
    + reflexivity.
Defined.

(** C10: when [parse_xs_file] raises, [load_xs_data] leaves the isotope as it
    was and raises the same exception; when [parse_xs_file] returns the empty
    list, [load_xs_data] stores it, so the series held before is lost, and
    then raises. *)
Theorem load_xs_data_atomic_on_parser_errors (fs : file_system) (self : Isotope) :
  (forall e,
      parse_xs_file fs (xs_file_location self) (name self) = inl e ->
      load_xs_data fs self = (self, inl e))
  /\ (parse_xs_file fs (xs_file_location self) (name self) = inr [] ->
      load_xs_data fs self = (set_xs_data self [], inl (no_data_error self))
      /\ xs_data (fst (load_xs_data fs self)) = []).
Proof.
  unfold load_xs_data. split.
  - intros e He. rewrite He. reflexivity.
  - intros He. rewrite He. simpl. split; reflexivity.
Qed.

Lemma load_xs_data_atomic_on_parser_errors_witness :
  load_xs_data (one_file "xs.txt" ["B" ++ nl]) loaded_isotope
  = (loaded_isotope,
     inl (ValueError "Cross-section data for A not found in xs.txt"))
  /\ load_xs_data
       (one_file "xs.txt" ["A" ++ nl; "#data..." ++ nl; "1.0" ++ nl])
       loaded_isotope
     = (loaded_isotope,
        inl (ValueError "not enough values to unpack (expected 2, got 1)"))
  /\ (load_xs_data (one_file "xs.txt" ["A" ++ nl; "//" ++ nl]) loaded_isotope
      = (set_xs_data loaded_isotope [],
         inl (ValueError "No data loaded for A from xs.txt"))
      /\ xs_data (fst (load_xs_data (one_file "xs.txt" ["A" ++ nl; "//" ++ nl])
                         loaded_isotope)) = []).
Proof.
  split.
  { apply (proj1 (load_xs_data_atomic_on_parser_errors
                    (one_file "xs.txt" ["B" ++ nl]) loaded_isotope)).
    reflexivity. }
  split.
  { apply (proj1 (load_xs_data_atomic_on_parser_errors
                    (one_file "xs.txt" ["A" ++ nl; "#data..." ++ nl; "1.0" ++ nl])
                    loaded_isotope)).
    reflexivity. }
  apply (proj2 (load_xs_data_atomic_on_parser_errors
                  (one_file "xs.txt" ["A" ++ nl; "//" ++ nl]) loaded_isotope)).
  reflexivity.
Defined.

Example float_examples :
  map Py.float_of_string ["1.0"; "2.5"; "-.5e1"; "1_0."; "1e400"; "0.1"; "abc"; "1__0"; "."; "6.02214076E23"; "-0.0"; "4.9e-324"; "2e-324"; "Inf"]
  = [Some 1.0; Some 2.5; Some (-5.0); Some 10.0; Some infinity; Some 0.1; None; None; None; Some 6.02214076e23; Some neg_zero; Some 4.9e-324; Some 0; Some infinity]%float.
Proof. vm_compute. reflexivity. Qed.

Example float_integer_examples :
  map Py.float_of_string ["1"; "8"; "10"; "1e-3"; "2E-3"; "-12e2"; "1_000"; "007"]
  = [Some 1; Some 8; Some 10; Some 0.001; Some 0.002; Some (-1200); Some 1000;
     Some 7]%float.
Proof. vm_compute. reflexivity. Qed.

Example split_examples :
  map Py.split ["1.0 2.5" ++ nl; "  a   b c "; EmptyString; "   "]
  = [["1.0"; "2.5"]; ["a"; "b"; "c"]; []; []].
Proof. reflexivity. Qed.

Example interp1d_examples :
  map (SciPy.interp1d [1; 2; 4]%float [10; 20; 60]%float)
      [1; 1.5; 2; 3; 4; 6; 0]%float
  = [10; 15; 20; 40; 60; 100; 0]%float
  /\ map (SciPy.interp1d [4; 1; 2]%float [60; 10; 20]%float) [1.5; 3]%float
     = [15; 40]%float
  /\ SciPy.interp1d [1]%float [10]%float 1%float = nan.
Proof. vm_compute. repeat split. Qed.

Example parse_xs_file_examples :
  parse_xs_file (one_file "f" ["A" ++ nl; "#data..." ++ nl; "# comment" ++ nl;
                               "1e-3 4" ++ nl; "B" ++ nl])
                "f" "A"
  = inl (ValueError "not enough values to unpack (expected 2, got 1)")
  /\ parse_xs_file (one_file "f" ["A #data..." ++ nl; "1 x" ++ nl]) "f" "A"
     = inl (ValueError "could not convert string to float: 'x'")
  /\ parse_xs_file (one_file "f" ["A"]) "g" "A" = inl (FileNotFoundError "g").
Proof. vm_compute. repeat split. Qed.

(** * Further properties of the module *)

Local Open Scope list_scope.

(** ** The parser, line by line *)

Lemma plain_inv line :
  plain line = true -> py_in "#data..." line = false /\ py_in "//" line = false.
Proof.
  unfold plain. intros H. apply andb_true_iff in H as [H1 H2].
  apply negb_true_iff in H1, H2. now split.
Qed.

Lemma scan_line_marker isotope_name st line :
  isotope_xs_found st = true \/ py_in isotope_name line = true ->
  py_in "#data..." line = true ->
  scan_line isotope_name st line = Continue (mkScan (scan_xs_data st) true true).
Proof.
  intros Hf Hd. unfold scan_line.
  destruct Hf as [Hf|Hf]; rewrite Hf;
    [destruct (py_in isotope_name line)|]; rewrite Hd; reflexivity.
Qed.

Lemma scan_line_comment isotope_name st line :
  comment_line isotope_name line = true ->
  scan_line isotope_name st line = Continue st.
Proof.
  unfold comment_line. intros H.
  apply andb_true_iff in H as [H Hn]. apply andb_true_iff in H as [Hs Hp].
  apply negb_true_iff in Hn. apply plain_inv in Hp as [Hd He].
  unfold scan_line. rewrite Hn, Hd, He, Hs.
  destruct st as [d f c]; simpl. destruct f; [destruct c|]; reflexivity.
Qed.

Lemma scan_line_waiting isotope_name st line :
  isotope_xs_found st = true \/ py_in isotope_name line = true ->
  capture_data st = false -> plain line = true ->
  scan_line isotope_name st line = Continue (mkScan (scan_xs_data st) true false).
Proof.
  intros Hf Hc Hp. apply plain_inv in Hp as [Hd He]. unfold scan_line.
  destruct Hf as [Hf|Hf]; rewrite Hf;
    [destruct (py_in isotope_name line)|]; rewrite Hd, He, Hc; reflexivity.
Qed.

Lemma scan_line_data_row isotope_name st line p :
  isotope_xs_found st = true -> capture_data st = true -> data_row line p ->
  scan_line isotope_name st line
  = Continue (mkScan (scan_xs_data st ++ [p]) true true).
Proof.
  intros Hf Hc (Hp & Hs & Hl). apply plain_inv in Hp as [Hd He].
  unfold scan_line. rewrite Hf, Hd, He, Hc, Hs, Hl.
  destruct (py_in isotope_name line); reflexivity.
Qed.

Lemma scan_line_bad_row isotope_name st line e :
  isotope_xs_found st = true -> capture_data st = true -> bad_row line e ->
  scan_line isotope_name st line = Raise e.
Proof.
  intros Hf Hc (Hp & Hs & Hl). apply plain_inv in Hp as [Hd He].
  unfold scan_line. rewrite Hf, Hd, He, Hc, Hs, Hl.
  destruct (py_in isotope_name line); reflexivity.
Qed.

Lemma scan_lines_waiting isotope_name d mid rest :
  Forall (fun l => plain l = true) mid ->
  scan_lines isotope_name (mkScan d true false) (mid ++ rest)
  = scan_lines isotope_name (mkScan d true false) rest.
Proof.
  induction 1 as [|l mid Hl _ IH]; simpl; [reflexivity|].
  rewrite (scan_line_waiting isotope_name (mkScan d true false) l);
    auto.
Qed.

Lemma scan_lines_rows isotope_name rows pairs :
  Forall2 data_row rows pairs ->
  forall d rest,
    scan_lines isotope_name (mkScan d true true) (rows ++ rest)
    = scan_lines isotope_name (mkScan (d ++ pairs) true true) rest.
Proof.
  induction 1 as [|l p rows pairs Hl _ IH]; intros d rest; simpl.
  - now rewrite app_nil_r.
  - rewrite (scan_line_data_row isotope_name (mkScan d true true) l p);
      auto.
    simpl. rewrite IH, <- app_assoc. reflexivity.
Qed.

Lemma scan_lines_block_end isotope_name d tail :
  block_end tail ->
  exists c, scan_lines isotope_name (mkScan d true true) tail
            = inr (mkScan d true c).
Proof.
  intros [->|(e & rest & -> & He)].
  - exists true. reflexivity.
  - exists false. unfold is_end_line in He.
    apply andb_true_iff in He as [He Hd]. apply negb_true_iff in Hd.
    simpl. rewrite (scan_line_end_marker isotope_name _ e); auto.
Qed.

(** The scan of a file that holds a block: lines without the name, the line
    that holds the name, plain lines, the data marker, then what follows. *)
Lemma scan_lines_to_block isotope_name pre name_line mid marker rest :
  Forall (fun l => py_in isotope_name l = false) pre ->
  py_in isotope_name name_line = true -> plain name_line = true ->
  Forall (fun l => plain l = true) mid ->
  py_in "#data..." marker = true ->
  scan_lines isotope_name scan_init
    (pre ++ name_line :: mid ++ marker :: rest)
  = scan_lines isotope_name (mkScan [] true true) rest.
Proof.
  intros Hpre Hn Hp Hmid Hm.
  rewrite (scan_lines_skip isotope_name scan_init pre _ eq_refl Hpre).
  simpl. rewrite (scan_line_waiting isotope_name scan_init name_line); auto.
  simpl. rewrite (scan_lines_waiting isotope_name [] mid _ Hmid).
  simpl. rewrite (scan_line_marker isotope_name _ marker); auto.
Qed.

Lemma parse_xs_file_of_block fs file_location isotope_name
      pre name_line mid marker rows pairs tail :
  fs file_location
  = Some (pre ++ name_line :: mid ++ marker :: rows ++ tail) ->
  Forall (fun l => py_in isotope_name l = false) pre ->
  py_in isotope_name name_line = true -> plain name_line = true ->
  Forall (fun l => plain l = true) mid ->
  py_in "#data..." marker = true ->
  Forall2 data_row rows pairs ->
  block_end tail ->
  parse_xs_file fs file_location isotope_name = inr pairs.
Proof.
  intros Hfile Hpre Hn Hp Hmid Hm Hrows Htail.
  unfold parse_xs_file. rewrite Hfile.
  rewrite (scan_lines_to_block _ _ _ _ _ _ Hpre Hn Hp Hmid Hm).
  rewrite (scan_lines_rows isotope_name rows pairs Hrows).
  destruct (scan_lines_block_end isotope_name ([] ++ pairs) tail Htail)
    as [c Hc].
  rewrite Hc. reflexivity.
Qed.

Lemma scan_line_found isotope_name st line st' :
  scan_line isotope_name st line = Continue st'
  \/ scan_line isotope_name st line = Break st' ->
  isotope_xs_found st' = true ->
  isotope_xs_found st = true \/ py_in isotope_name line = true.
Proof.
  unfold scan_line. destruct (py_in isotope_name line); [auto|].
  destruct (isotope_xs_found st) eqn:Hf; [auto|].
  intros [H|H]; [|discriminate]. injection H as <-. simpl. discriminate.
Qed.

Lemma scan_lines_found isotope_name lines :
  forall st st',
    scan_lines isotope_name st lines = inr st' ->
    isotope_xs_found st' = true ->
    isotope_xs_found st = true
    \/ Exists (fun l => py_in isotope_name l = true) lines.
Proof.
  induction lines as [|l lines IH]; intros st st' H Hf; simpl in H.
  - injection H as <-. auto.
  - destruct (scan_line isotope_name st l) as [st1|st1|e] eqn:Hl.
    + destruct (IH _ _ H Hf) as [H1|H1]; [|right; now constructor 2].
      destruct (scan_line_found _ _ _ _ (or_introl Hl) H1); auto.
    + injection H as <-.
      destruct (scan_line_found _ _ _ _ (or_intror Hl) Hf); auto.
    + discriminate.
Qed.

(** *** Substrings *)

Lemma string_app_assoc (a b c : string) :
  ((a ++ b) ++ c)%string = (a ++ b ++ c)%string.
Proof. induction a as [|x a IH]; simpl; [reflexivity | now rewrite IH]. Qed.

Lemma prefix_elim (n h : string) :
  String.prefix n h = true -> exists b, h = (n ++ b)%string.
Proof.
  revert h. induction n as [|c n IH]; intros h H.
  - exists h. reflexivity.
  - destruct h as [|c' h]; simpl in H; [discriminate|].
    destruct (ascii_dec c c') as [<-|]; [|discriminate].
    destruct (IH _ H) as [b ->]. exists b. reflexivity.
Qed.

Lemma py_in_elim (n h : string) :
  py_in n h = true -> exists a b, h = (a ++ n ++ b)%string.
Proof.
  induction h as [|c h IH]; cbn [py_in]; intros H;
    apply orb_true_iff in H as [H|H].
  - destruct (prefix_elim _ _ H) as [b Hb]. exists EmptyString, b. exact Hb.
  - discriminate.
  - destruct (prefix_elim _ _ H) as [b Hb]. exists EmptyString, b. exact Hb.
  - destruct (IH H) as (a & b & ->). exists (String c a), b. reflexivity.
Qed.

Lemma py_in_trans (a b c : string) :
  py_in a b = true -> py_in b c = true -> py_in a c = true.
Proof.
  intros Hab Hbc.
  destruct (py_in_elim _ _ Hab) as (u & v & ->).
  destruct (py_in_elim _ _ Hbc) as (x & y & ->).
  rewrite !string_app_assoc, <- string_app_assoc.
  apply py_in_middle.
Qed.

(** *** White space *)

Lemma split_all_space (s : string) : all_space s = true -> split s = [].
Proof.
  unfold split. induction s as [|c s IH]; simpl; [reflexivity|].
  intros H. apply andb_true_iff in H as [Hc Hs]. rewrite Hc. auto.
Qed.

Lemma py_in_all_space (c : ascii) (n s : string) :
  isspace c = false -> all_space s = true -> py_in (String c n) s = false.
Proof.
  intros Hc. induction s as [|c' s IH]; intros Hs; [reflexivity|].
  simpl in Hs. apply andb_true_iff in Hs as [Hc' Hs].
  cbn [py_in String.prefix].
  destruct (ascii_dec c c') as [->|_]; [congruence|].
  simpl. auto.
Qed.

Lemma blank_line_is_bad_row (line : string) :
  all_space line = true ->
  bad_row line (ValueError "not enough values to unpack (expected 2, got 0)").
Proof.
  intros H. unfold bad_row, plain.
  rewrite !py_in_all_space by (reflexivity || exact H).
  split; [reflexivity|]. split.
  - destruct line as [|c l]; [reflexivity|].
    simpl in H. apply andb_true_iff in H as [Hc _].
    unfold startswith. cbn [String.prefix].
    destruct (ascii_dec "#" c) as [<-|_]; [|reflexivity].
    vm_compute in Hc. discriminate.
  - unfold parse_data_line. rewrite (split_all_space _ H). reflexivity.
Qed.

(** ** The parser on a block *)

(** X1: in a file whose first line holding the name is followed by plain
    lines, a data marker and data rows, [parse_xs_file] returns the pairs of
    the rows, one per row and in file order, whether the rows are closed by an
    end line (whatever comes after it) or by the end of the file. *)
Theorem parse_xs_file_block (fs : file_system)
        (file_location isotope_name : string)
        (pre mid rows tail : list string) (name_line marker : string)
        (pairs : xs_series)
        (Hfile : fs file_location
                 = Some (pre ++ name_line :: mid ++ marker :: rows ++ tail))
        (Hpre : Forall (fun l => py_in isotope_name l = false) pre)
        (Hname : py_in isotope_name name_line = true)
        (Hplain : plain name_line = true)
        (Hmid : Forall (fun l => plain l = true) mid)
        (Hmarker : py_in "#data..." marker = true)
        (Hrows : Forall2 data_row rows pairs)
        (Htail : block_end tail) :
  parse_xs_file fs file_location isotope_name = inr pairs
  /\ List.length pairs = List.length rows.
Proof.
  split.
  - eapply parse_xs_file_of_block; eassumption.
  - symmetry. eapply Forall2_length; eassumption.
Qed.

Ltac data_rows :=
  repeat (apply Forall2_cons;
          [split; [reflexivity | split; [reflexivity | vm_compute; reflexivity]]
          |]);
  apply Forall2_nil.

Lemma parse_xs_file_block_witness :
  parse_xs_file
    (one_file "xs.txt"
       (["header" ++ nl]%string
        ++ ("A 1 0" ++ nl)%string
        :: ["page 1" ++ nl]%string
        ++ ("#data..." ++ nl)%string
        :: [" 1e-3   7.5" ++ nl; "2E-3 8" ++ nl]%string
        ++ [("//" ++ nl)%string; ("A again" ++ nl)%string; "#data..."; "x"]))
    "xs.txt" "A"
  = inr [(1e-3 * 1e6, 7.5); (2e-3 * 1e6, 8)]%float
  /\ List.length [(1e-3 * 1e6, 7.5); (2e-3 * 1e6, 8)]%float
     = List.length [" 1e-3   7.5" ++ nl; "2E-3 8" ++ nl]%string.
Proof.
  apply (parse_xs_file_block _ "xs.txt" "A" ["header" ++ nl]%string
           ["page 1" ++ nl]%string
           [" 1e-3   7.5" ++ nl; "2E-3 8" ++ nl]%string
           [("//" ++ nl)%string; ("A again" ++ nl)%string; "#data..."; "x"]
           ("A 1 0" ++ nl)%string ("#data..." ++ nl)%string).
  - reflexivity.
  - repeat constructor.
  - reflexivity.
  - reflexivity.
  - repeat constructor.
  - reflexivity.
  - data_rows.
  - right. eexists _, _. split; reflexivity.
Defined.



(** X3: a blank line (white space only) among the rows of a block is not
    skipped: it makes [parse_xs_file] raise the unpacking error of an empty
    split. *)
Theorem parse_xs_file_blank_row (fs : file_system)
        (file_location isotope_name : string)
        (pre mid rows rest : list string) (name_line marker blank : string)
        (pairs : xs_series)
        (Hfile : fs file_location
                 = Some (pre ++ name_line :: mid ++ marker
                             :: rows ++ blank :: rest))
        (Hpre : Forall (fun l => py_in isotope_name l = false) pre)
        (Hname : py_in isotope_name name_line = true)
        (Hplain : plain name_line = true)
        (Hmid : Forall (fun l => plain l = true) mid)
        (Hmarker : py_in "#data..." marker = true)
        (Hrows : Forall2 data_row rows pairs)
        (Hblank : all_space blank = true) :
  parse_xs_file fs file_location isotope_name
  = inl (ValueError "not enough values to unpack (expected 2, got 0)").
Proof.
  unfold parse_xs_file. rewrite Hfile.
  rewrite (scan_lines_to_block _ _ _ _ _ _ Hpre Hname Hplain Hmid Hmarker).
  rewrite (scan_lines_rows isotope_name rows pairs Hrows).
  simpl.
  rewrite (scan_line_bad_row isotope_name (mkScan pairs true true)
             blank _ eq_refl eq_refl (blank_line_is_bad_row blank Hblank)).
  reflexivity.
Qed.

Lemma parse_xs_file_blank_row_witness :
  parse_xs_file
    (one_file "xs.txt"
       ([] ++ ("A" ++ nl)%string :: [] ++ ("#data..." ++ nl)%string
           :: ["1.0 2.5" ++ nl]%string
           ++ nl :: [("2.0 3.0" ++ nl)%string; ("//" ++ nl)%string]))
    "xs.txt" "A"
  = inl (ValueError "not enough values to unpack (expected 2, got 0)").
Proof.
  apply (parse_xs_file_blank_row _ "xs.txt" "A" [] [] ["1.0 2.5" ++ nl]%string
           [("2.0 3.0" ++ nl)%string; ("//" ++ nl)%string]
           ("A" ++ nl)%string ("#data..." ++ nl)%string nl [(1e6, 2.5)]%float).
  - reflexivity.
  - constructor.
  - reflexivity.
  - reflexivity.
  - constructor.
  - reflexivity.
  - data_rows.
  - reflexivity.
Defined.

(** ** The parser on any file *)

Lemma scan_lines_drop_comment isotope_name line pre :
  comment_line isotope_name line = true ->
  forall st rest,
    scan_lines isotope_name st (pre ++ line :: rest)
    = scan_lines isotope_name st (pre ++ rest).
Proof.
  intros Hc. induction pre as [|l pre IH]; intros st rest; simpl.
  - now rewrite (scan_line_comment _ st _ Hc).
  - destruct (scan_line isotope_name st l); auto.
Qed.

(** X4: a comment line (it starts with "#" and holds neither the name nor a
    marker) can be added to or removed from a file at any place without
    changing what [parse_xs_file] returns or raises. *)
Theorem parse_xs_file_comment_transparent (fs fs' : file_system)
        (file_location isotope_name line : string) (pre rest : list string)
        (Hfile : fs file_location = Some (pre ++ line :: rest))
        (Hfile' : fs' file_location = Some (pre ++ rest))
        (Hcomment : comment_line isotope_name line = true) :
  parse_xs_file fs file_location isotope_name
  = parse_xs_file fs' file_location isotope_name.
Proof.
  unfold parse_xs_file. rewrite Hfile, Hfile'.
  rewrite (scan_lines_drop_comment _ _ _ Hcomment). reflexivity.
Qed.

Lemma parse_xs_file_comment_transparent_witness :
  parse_xs_file
    (one_file "xs.txt"
       ([("A" ++ nl)%string; ("#data..." ++ nl)%string; ("1.0 2.5" ++ nl)%string]
        ++ ("# energy xs" ++ nl)%string
        :: [("2.0 3.0" ++ nl)%string; ("//" ++ nl)%string]))
    "xs.txt" "A"
  = parse_xs_file
      (one_file "xs.txt"
         ([("A" ++ nl)%string; ("#data..." ++ nl)%string;
           ("1.0 2.5" ++ nl)%string]
          ++ [("2.0 3.0" ++ nl)%string; ("//" ++ nl)%string]))
      "xs.txt" "A".
Proof.
  apply (parse_xs_file_comment_transparent _ _ "xs.txt" "A"
           ("# energy xs" ++ nl)%string
           [("A" ++ nl)%string; ("#data..." ++ nl)%string;
            ("1.0 2.5" ++ nl)%string]
           [("2.0 3.0" ++ nl)%string; ("//" ++ nl)%string]);
    reflexivity.
Defined.

(** X5: [parse_xs_file] returns a series only when the file can be opened
    and one of its lines holds the isotope name. *)
Theorem parse_xs_file_returns_only_if_named (fs : file_system)
        (file_location isotope_name : string) (d : xs_series)
        (Hparse : parse_xs_file fs file_location isotope_name = inr d) :
  exists lines,
    fs file_location = Some lines
    /\ Exists (fun l => py_in isotope_name l = true) lines.
Proof.
  unfold parse_xs_file in Hparse.
  destruct (fs file_location) as [lines|]; [|discriminate].
  exists lines. split; [reflexivity|].
  destruct (scan_lines isotope_name scan_init lines) as [e|st] eqn:Hscan;
    [discriminate|].
  simpl in Hparse.
  destruct (isotope_xs_found st) eqn:Hf; [|discriminate].
  destruct (scan_lines_found _ _ _ _ Hscan Hf) as [H|H]; [discriminate|exact H].
Qed.

Lemma parse_xs_file_returns_only_if_named_witness :
  exists lines,
    one_file "xs.txt" synthetic_file "xs.txt" = Some lines
    /\ Exists (fun l => py_in "A" l = true) lines.
Proof.
  apply (parse_xs_file_returns_only_if_named
           (one_file "xs.txt" synthetic_file) "xs.txt" "A"
           [(1e6, 2.5); (2e6, 3.0)]%float).
  vm_compute. reflexivity.
Defined.

(** X6: the name is matched as a substring.  When the isotope name asked for
    is a substring of another isotope's name, and the first line that holds
    the shorter name is the head line of the other isotope's block, the rows
    of that block are returned. *)
Theorem parse_xs_file_substring_match (fs : file_system)
        (file_location short_name long_name : string)
        (pre mid rows tail : list string) (name_line marker : string)
        (pairs : xs_series)
        (Hsub : py_in short_name long_name = true)
        (Hfile : fs file_location
                 = Some (pre ++ name_line :: mid ++ marker :: rows ++ tail))
        (Hpre : Forall (fun l => py_in short_name l = false) pre)
        (Hname : py_in long_name name_line = true)
        (Hplain : plain name_line = true)
        (Hmid : Forall (fun l => plain l = true) mid)
        (Hmarker : py_in "#data..." marker = true)
        (Hrows : Forall2 data_row rows pairs)
        (Htail : block_end tail) :
  parse_xs_file fs file_location short_name = inr pairs.
Proof.
  eapply parse_xs_file_of_block; try eassumption.
  exact (py_in_trans _ _ _ Hsub Hname).
Qed.

Lemma parse_xs_file_substring_match_witness :
  parse_xs_file
    (one_file "xs.txt"
       ([] ++ ("U-235 capture" ++ nl)%string
           :: [] ++ ("#data..." ++ nl)%string
           :: [("1.0 2.5" ++ nl)%string]
           ++ [("//" ++ nl)%string; ("U total" ++ nl)%string;
               ("#data..." ++ nl)%string; ("1.0 9.0" ++ nl)%string]))
    "xs.txt" "U"
  = inr [(1e6, 2.5)]%float.
Proof.
  apply (parse_xs_file_substring_match _ "xs.txt" "U" "U-235" [] []
           [("1.0 2.5" ++ nl)%string]
           [("//" ++ nl)%string; ("U total" ++ nl)%string;
            ("#data..." ++ nl)%string; ("1.0 9.0" ++ nl)%string]
           ("U-235 capture" ++ nl)%string ("#data..." ++ nl)%string).
  - reflexivity.
  - reflexivity.
  - constructor.
  - reflexivity.
  - reflexivity.
  - constructor.
  - reflexivity.
  - data_rows.
  - right. eexists _, _. split; reflexivity.
Defined.

(** ** The calculator on any grid *)

Section CalculatorGrid.

Variable np_exp : float -> float.
Variable interp1d : list float -> list float -> float -> float.

Lemma curve_of_app f ad g1 g2 :
  curve_of np_exp f ad (g1 ++ g2)
  = curve_of np_exp f ad g1 ++ curve_of np_exp f ad g2.
Proof. unfold curve_of. apply map_app. Qed.

(** Whether the function raises, and what it raises, is settled before the
    grid is read. *)
Lemma create_transmission_shape iso :
  (exists e, forall grid,
        create_transmission np_exp interp1d grid iso = inl e)
  \/ (exists f ad, forall grid,
         create_transmission np_exp interp1d grid iso
         = inr (curve_of np_exp f ad grid)).
Proof.
  unfold create_transmission.
  destruct (String.eqb (thickness_unit iso) "cm"); simpl.
  - destruct (String.eqb (density_unit iso) "g/cm3"); simpl;
      [|left; eexists; reflexivity].
    destruct (truediv _ _) as [e|q]; simpl; [left; eexists; reflexivity|].
    destruct (unpack2 _) as [e|[xs ys]]; simpl; [left; eexists; reflexivity|].
    right. eexists _, _. intros grid. now rewrite transmission_loop_map.
  - destruct (String.eqb (thickness_unit iso) "mm"); simpl;
      [|left; eexists; reflexivity].
    destruct (String.eqb (density_unit iso) "g/cm3"); simpl;
      [|left; eexists; reflexivity].
    destruct (truediv _ _) as [e|q]; simpl; [left; eexists; reflexivity|].
    destruct (unpack2 _) as [e|[xs ys]]; simpl; [left; eexists; reflexivity|].
    right. eexists _, _. intros grid. now rewrite transmission_loop_map.
Qed.

End CalculatorGrid.

(** X7: the curve of a concatenated grid is the concatenation of the curves
    of its parts, and the call on the whole grid raises exactly when the call
    on a part does, with the same exception: each point is computed on its
    own, and no exception depends on the grid. *)
Theorem create_transmission_grid_app
        (np_exp : float -> float)
        (interp1d : list float -> list float -> float -> float)
        (iso : Isotope) (g1 g2 : list float) :
  create_transmission np_exp interp1d (g1 ++ g2) iso
  = bind (create_transmission np_exp interp1d g1 iso)
      (fun c1 =>
         bind (create_transmission np_exp interp1d g2 iso)
           (fun c2 => ret (c1 ++ c2))).
Proof.
  destruct (create_transmission_shape np_exp interp1d iso)
    as [[e H]|(f & ad & H)]; rewrite !H; simpl.
  - reflexivity.
  - now rewrite curve_of_app.
Qed.

(** X8: asking for a curve before the cross-section data are there fails.
    With valid units and a non-zero atomic mass, an isotope whose [xs_data] is
    empty makes [create_transmission] raise the unpacking error of [zip], for
    every grid, the empty one included. *)
Theorem create_transmission_without_data
        (np_exp : float -> float)
        (interp1d : list float -> list float -> float -> float)
        (grid : list float) (iso : Isotope)
        (Hunit : thickness_unit iso = "cm" \/ thickness_unit iso = "mm")
        (Hdens : density_unit iso = "g/cm3")
        (Hmass : PrimFloat.eqb (atomic_mass iso) 0 = false)
        (Hdata : xs_data iso = []) :
  create_transmission np_exp interp1d grid iso
  = inl (ValueError "not enough values to unpack (expected 2, got 0)").
Proof.
  assert (H : forall t, after_unit_checks np_exp interp1d t grid iso
                        = inl (ValueError
                                 "not enough values to unpack (expected 2, got 0)")).
  { intros t. unfold after_unit_checks, truediv. rewrite Hmass, Hdata.
    reflexivity. }
  destruct Hunit as [Hu|Hu].
  - rewrite (create_transmission_cm _ _ _ _ Hu Hdens). apply H.
  - rewrite (create_transmission_mm _ _ _ _ Hu Hdens). apply H.
Qed.

Lemma create_transmission_without_data_witness :
  create_transmission exp_arg SciPy.interp1d []
    (set_xs_data scenario_isotope [])
  = inl (ValueError "not enough values to unpack (expected 2, got 0)").
Proof.
  apply (create_transmission_without_data exp_arg SciPy.interp1d []
           (set_xs_data scenario_isotope [])).
  - left; reflexivity.
  - reflexivity.
  - reflexivity.
  - reflexivity.
Defined.

(** X9: the outcome of [create_transmission] depends on the isotope through
    its thickness, thickness unit, density, density unit, atomic mass and
    cross-section data only: the name, the abundance and the file location
    are never read. *)
Theorem create_transmission_reads_six_fields
        (np_exp : float -> float)
        (interp1d : list float -> list float -> float -> float)
        (grid : list float) (iso iso' : Isotope)
        (Hthickness : thickness iso = thickness iso')
        (Hthickness_unit : thickness_unit iso = thickness_unit iso')
        (Hdensity : density iso = density iso')
        (Hdensity_unit : density_unit iso = density_unit iso')
        (Hmass : atomic_mass iso = atomic_mass iso')
        (Hdata : xs_data iso = xs_data iso') :
  create_transmission np_exp interp1d grid iso
  = create_transmission np_exp interp1d grid iso'.
Proof.
  unfold create_transmission.
  rewrite Hthickness, Hthickness_unit, Hdensity, Hdensity_unit, Hmass, Hdata.
  reflexivity.
Qed.

Lemma create_transmission_reads_six_fields_witness :
  create_transmission exp_arg SciPy.interp1d [1e6; 1.5e6]%float loaded_isotope
  = create_transmission exp_arg SciPy.interp1d [1e6; 1.5e6]%float
      (mkIsotope "B" 1.0%float 1.0%float "cm" 0.25%float "other.txt"
                 1.0%float "g/cm3" [(1e6, 2.5); (2e6, 3.0)]%float).
Proof.
  apply (create_transmission_reads_six_fields exp_arg SciPy.interp1d
           [1e6; 1.5e6]%float loaded_isotope); reflexivity.
Defined.

(** ** The interpolant on a one-point table *)

Lemma SF64sub_diag (s : spec_float) :
  SF64sub s s = S754_nan \/ SF64sub s s = S754_zero false.
Proof.
  destruct s as [b|b| |b m e]; try destruct b; auto.
  - right. unfold SF64sub, SFsub. cbv zeta. rewrite Z.sub_diag. reflexivity.
  - right. unfold SF64sub, SFsub. cbv zeta. rewrite Z.sub_diag. reflexivity.
Qed.

Lemma is_nan_iff (x : float) : Prim2SF x = S754_nan -> x = nan.
Proof. intros H. apply Prim2SF_inj. rewrite H. reflexivity. Qed.

Lemma sub_diag_div (x y : float) : ((y - y) / (x - x))%float = nan.
Proof.
  apply is_nan_iff. rewrite div_spec, !sub_spec.
  destruct (SF64sub_diag (Prim2SF y)) as [-> | ->];
    destruct (SF64sub_diag (Prim2SF x)) as [-> | ->]; reflexivity.
Qed.

Lemma nan_mul (x : float) : (nan * x)%float = nan.
Proof. apply is_nan_iff. rewrite mul_spec. reflexivity. Qed.

Lemma nan_add (x : float) : (nan + x)%float = nan.
Proof. apply is_nan_iff. rewrite add_spec. reflexivity. Qed.

Lemma interp1d_one_point (x y x_new : float) :
  SciPy.interp1d [x] [y] x_new = nan.
Proof.
  unfold SciPy.interp1d. cbn [combine SciPy.sort_points SciPy.insert map fst snd].
  cbn [SciPy.searchsorted List.length].
  assert (Hhi : SciPy.clip (if SciPy.np_lt x x_new then (1 + 0)%Z else 0%Z) 1
                           (Z.of_nat 1 - 1) = 0%Z).
  { destruct (SciPy.np_lt x x_new); reflexivity. }
  rewrite Hhi. cbv zeta.
  change (SciPy.getitem [x] (0 - 1)) with x.
  change (SciPy.getitem [x] 0) with x.
  change (SciPy.getitem [y] (0 - 1)) with y.
  change (SciPy.getitem [y] 0) with y.
  rewrite sub_diag_div, nan_mul, nan_add. reflexivity.
Qed.

(** X10: a table of one point cannot be interpolated.  For an isotope with
    valid units, a non-zero atomic mass and exactly one tabulated point, the
    library interpolant has the slope 0/0 at every energy, so every
    transmission of the returned curve is [np.exp(nan)], also at the tabulated
    energy itself. *)
Theorem create_transmission_one_point_table
        (np_exp : float -> float) (grid : list float) (iso : Isotope)
        (x y : float)
        (Hunit : thickness_unit iso = "cm" \/ thickness_unit iso = "mm")
        (Hdens : density_unit iso = "g/cm3")
        (Hmass : PrimFloat.eqb (atomic_mass iso) 0 = false)
        (Hdata : xs_data iso = [(x, y)]) :
  create_transmission np_exp SciPy.interp1d grid iso
  = inr (map (fun energy => (energy, np_exp nan)) grid).
Proof.
  assert (Hne : xs_data iso <> []) by (rewrite Hdata; discriminate).
  assert (H : forall t,
             after_unit_checks np_exp SciPy.interp1d t grid iso
             = inr (map (fun energy => (energy, np_exp nan)) grid)).
  { intros t. rewrite (after_unit_checks_returns _ _ _ _ _ Hmass Hne).
    rewrite Hdata. unfold curve_of. f_equal. apply map_ext. intros e.
    cbn [map fst snd]. rewrite interp1d_one_point.
    change (- nan)%float with nan. rewrite nan_mul. reflexivity. }
  destruct Hunit as [Hu|Hu].
  - rewrite (create_transmission_cm _ _ _ _ Hu Hdens). apply H.
  - rewrite (create_transmission_mm _ _ _ _ Hu Hdens). apply H.
Qed.

Lemma create_transmission_one_point_table_witness :
  create_transmission exp_arg SciPy.interp1d [0.5e6; 1e6; 2e6]%float
    scenario_isotope
  = inr (map (fun energy => (energy, exp_arg nan)) [0.5e6; 1e6; 2e6]%float).
Proof.
  apply (create_transmission_one_point_table exp_arg [0.5e6; 1e6; 2e6]%float
           scenario_isotope 1e6%float 1.0%float).
  - left; reflexivity.
  - reflexivity.
  - reflexivity.
  - reflexivity.
Defined.

(** ** Loading *)

Lemma load_xs_data_returns_inv fs self self' :
  load_xs_data fs self = (self', inr tt) ->
  exists p d,
    parse_xs_file fs (xs_file_location self) (name self) = inr (p :: d)
    /\ self' = set_xs_data self (p :: d).
Proof.
  unfold load_xs_data.
  destruct (parse_xs_file fs (xs_file_location self) (name self)) as [e|[|p d]];
    simpl; intros H; try discriminate.
  injection H as <-. eauto.
Qed.

(** X11: whatever its outcome, [load_xs_data] changes no field of the
    isotope other than [xs_data]. *)
Theorem load_xs_data_frame (fs : file_system) (self : Isotope) :
  let self' := fst (load_xs_data fs self) in
  name self' = name self
  /\ atomic_mass self' = atomic_mass self
  /\ thickness self' = thickness self
  /\ thickness_unit self' = thickness_unit self
  /\ abundance self' = abundance self
  /\ xs_file_location self' = xs_file_location self
  /\ density self' = density self
  /\ density_unit self' = density_unit self.
Proof.
  unfold load_xs_data.
  destruct (parse_xs_file fs (xs_file_location self) (name self)) as [e|[|p d]];
    simpl; repeat split.
Qed.

(** X12: loading twice from the same files is loading once: the second call
    has the outcome of the first and leaves the isotope as the first left
    it. *)
Theorem load_xs_data_idempotent (fs : file_system) (self : Isotope) :
  load_xs_data fs (fst (load_xs_data fs self)) = load_xs_data fs self.
Proof.
  unfold load_xs_data.
  destruct (parse_xs_file fs (xs_file_location self) (name self))
    as [e|[|p d]] eqn:Hp; simpl; rewrite Hp; reflexivity.
Qed.

(** X13: loading then computing.  When [load_xs_data] returns and the
    isotope has valid units and a non-zero atomic mass, [create_transmission]
    on the loaded isotope returns, for every grid, one pair per grid point with
    the energies of the grid in order. *)
Theorem load_then_create_transmission
        (np_exp : float -> float)
        (interp1d : list float -> list float -> float -> float)
        (fs : file_system) (grid : list float) (self self' : Isotope)
        (Hload : load_xs_data fs self = (self', inr tt))
        (Hunit : thickness_unit self = "cm" \/ thickness_unit self = "mm")
        (Hdens : density_unit self = "g/cm3")
        (Hmass : PrimFloat.eqb (atomic_mass self) 0 = false) :
  exists curve,
    create_transmission np_exp interp1d grid self' = inr curve
    /\ map fst curve = grid.
Proof.
  destruct (load_xs_data_returns_inv _ _ _ Hload) as (p & d & _ & ->).
  assert (Hne : xs_data (set_xs_data self (p :: d)) <> []) by discriminate.
  destruct Hunit as [Hu|Hu].
  - rewrite (create_transmission_cm np_exp interp1d grid
               (set_xs_data self (p :: d)) Hu Hdens).
    rewrite (after_unit_checks_returns np_exp interp1d _ grid
               (set_xs_data self (p :: d)) Hmass Hne).
    eexists; split; [reflexivity | apply curve_of_energies].
  - rewrite (create_transmission_mm np_exp interp1d grid
               (set_xs_data self (p :: d)) Hu Hdens).
    rewrite (after_unit_checks_returns np_exp interp1d _ grid
               (set_xs_data self (p :: d)) Hmass Hne).
    eexists; split; [reflexivity | apply curve_of_energies].
Qed.

Lemma load_then_create_transmission_witness :
  exists curve,
    create_transmission exp_arg SciPy.interp1d [1e6; 1.5e6]%float loaded_isotope
    = inr curve
    /\ map fst curve = [1e6; 1.5e6]%float.
Proof.
  apply (load_then_create_transmission exp_arg SciPy.interp1d
           (one_file "xs.txt" synthetic_file) [1e6; 1.5e6]%float
           (set_xs_data loaded_isotope []) loaded_isotope).
  - vm_compute. reflexivity.
  - left; reflexivity.
  - reflexivity.
  - reflexivity.
Defined.

(** ** The loader *)

Section LoaderFacts.

Variable config_read : string -> result ConfigParser.
Variable get_mass_from_ame : string -> result float.
Variable fs : file_system.



Lemma isotopes_loop_skip config s pre :
  config_getboolean config s "ignore" false = inr true ->
  forall post acc,
    isotopes_loop get_mass_from_ame fs config Isotope_default
      (pre ++ s :: post) acc
    = isotopes_loop get_mass_from_ame fs config Isotope_default
        (pre ++ post) acc.
Proof.
  intros Hs. induction pre as [|l pre IH]; intros post acc.
  - cbn [app isotopes_loop]. rewrite Hs. reflexivity.
  - cbn [app isotopes_loop].
    destruct (config_getboolean config l "ignore" false) as [e|[|]];
      cbn [bind]; [reflexivity | apply IH |].
    repeat match goal with
           | |- bind ?c _ = bind ?c _ =>
               destruct c; cbn [bind]; [reflexivity|]
           end.
    match goal with
    | |- context [load_xs_data fs ?i] =>
        destruct (load_xs_data fs i) as [iso' [e|[]]]
    end; cbn [bind]; [reflexivity | apply IH].
Qed.

Lemma isotopes_loop_ext config config' todo :
  (forall s o, get_raw config' s o = get_raw config s o) ->
  forall acc,
    isotopes_loop get_mass_from_ame fs config' Isotope_default todo acc
    = isotopes_loop get_mass_from_ame fs config Isotope_default todo acc.
Proof.
  intros Hraw. induction todo as [|l todo IH]; intros acc; [reflexivity|].
  cbn [isotopes_loop].
  unfold config_getboolean, config_get, config_getfloat.
  rewrite !Hraw.
  destruct (bind (get_raw config l "ignore") _) as [e|[|]]; cbn [bind];
    [reflexivity | apply IH |].
  repeat match goal with
         | |- bind ?c _ = bind ?c _ =>
             destruct c; cbn [bind]; [reflexivity|]
         end.
  match goal with
  | |- context [load_xs_data fs ?i] =>
      destruct (load_xs_data fs i) as [iso' [e|[]]]
  end; cbn [bind]; [reflexivity | apply IH].
Qed.


End LoaderFacts.




(** X15: a section whose [ignore] flag reads as true is skipped as if it
    were not in the file: none of its other options is read, no mass is looked
    up and no file is opened for it, so it cannot make the constructor
    fail. *)
Theorem Isotopes_init_ignores_section
        (config_read config_read' : string -> result ConfigParser)
        (get_mass_from_ame : string -> result float)
        (fs : file_system) (config_file : string) (config : ConfigParser)
        (pre post : list string) (s : string)
        (Hread : config_read config_file = inr config)
        (Hsections : sections config = pre ++ s :: post)
        (Hread' : config_read' config_file
                  = inr (mkConfig (pre ++ post) (get_raw config)))
        (Hignore : config_getboolean config s "ignore" false = inr true) :
  Isotopes_init config_read get_mass_from_ame fs config_file
  = Isotopes_init config_read' get_mass_from_ame fs config_file.
Proof.
  unfold Isotopes_init. rewrite Hread, Hread'. cbn [bind sections].
  rewrite Hsections.
  rewrite (isotopes_loop_skip get_mass_from_ame fs config s pre Hignore).
  symmetry. apply isotopes_loop_ext. reflexivity.
Qed.

Lemma Isotopes_init_ignores_section_witness :
  Isotopes_init example_read example_mass (one_file "xs.txt" synthetic_file)
    "isotopes.ini"
  = Isotopes_init
      (fun _ => inr (mkConfig (["first"%string] ++ ["third"%string])
                              (get_raw example_config)))
      example_mass (one_file "xs.txt" synthetic_file) "isotopes.ini".
Proof.
  apply (Isotopes_init_ignores_section example_read _ example_mass
           (one_file "xs.txt" synthetic_file) "isotopes.ini" example_config
           ["first"%string] ["third"%string] "second");
    reflexivity.
Defined.



(** ** The printed form *)

(** X17: the printed form of an isotope tells whether its data are loaded.
    It ends with "XS data not loaded)" as long as [xs_data] is empty, as it is
    after construction and after a load that found no row, and with "XS data
    loaded successfully)" once [load_xs_data] has returned. *)
Theorem Isotope_repr_status (str_float : float -> string) (fs : file_system)
        (self : Isotope) :
  (xs_data self = [] ->
   exists s, Isotope_repr str_float self = (s ++ "XS data not loaded)")%string)
  /\ (forall self',
         load_xs_data fs self = (self', inr tt) ->
         exists s, Isotope_repr str_float self'
                   = (s ++ "XS data loaded successfully)")%string).
Proof.
  split.
  - intros Hd. unfold Isotope_repr, xs_status. rewrite Hd. cbn [List.length Nat.eqb negb].
    eexists. rewrite <- !string_app_assoc. rewrite string_app_assoc.
    reflexivity.
  - intros self' Hload.
    destruct (load_xs_data_returns_inv _ _ _ Hload) as (p & d & _ & ->).
    unfold Isotope_repr, xs_status.
    cbn [xs_data set_xs_data List.length Nat.eqb negb].
    eexists. rewrite <- !string_app_assoc. rewrite string_app_assoc.
    reflexivity.
Qed.

Lemma Isotope_repr_status_witness :
  (exists s, Isotope_repr (fun _ => "1.0"%string) Isotope_default
             = (s ++ "XS data not loaded)")%string)
  /\ (exists s, Isotope_repr (fun _ => "1.0"%string) loaded_isotope
                = (s ++ "XS data loaded successfully)")%string).
Proof.
  split.
  - apply (proj1 (Isotope_repr_status (fun _ => "1.0"%string)
                    (one_file "xs.txt" synthetic_file) Isotope_default)).
    reflexivity.
  - apply (proj2 (Isotope_repr_status (fun _ => "1.0"%string)
                    (one_file "xs.txt" synthetic_file)
                    (set_xs_data loaded_isotope []))).
    vm_compute. reflexivity.
Defined.

(** ** The loader on a failing section *)

Section LoaderFailure.

Variable get_mass_from_ame : string -> result float.
Variable fs : file_system.




End LoaderFailure.


